(** * EMB, Embedded MicroBenchmarks: a model of [include/emb/emb.hpp]

    The header is a template over a [Timer] (a class with a static [now()])
    and an [Accumulator] (the numeric type that holds the running mean and the
    sum of squared differences).  The model keeps both as parameters:

    - the numeric operations the template uses on an [Accumulator] are the
      fields of the class [AccumulatorOps]; the two overload sets of
      [detail::multiply] and [detail::sqrt] give two families of instances,
      one for plain scalars and one for [std::chrono]-like wrappers;
    - [Timer::now()] reads a clock: the k-th call made by the program returns
      [now k], and the number of calls made so far is threaded as state;
    - [size_t] is [Z] with its wrap-around written out, for any width of at
      least 16 bits;
    - the range-for loop a benchmark function drives a [State] with is a
      small-step machine over the header's [begin], [end], [operator!=],
      [operator*], [operator++] and the guard's constructor and destructor;
      a null [State*] that is dereferenced sends it to [Undefined].

    Two scalars are provided: [exact], real arithmetic in which a division by
    a zero count or the root of a negative number has no finite value, and
    [float], IEEE 754 binary64 as the kernel computes it.

    Exceptions are outside the model: the header throws and catches nothing,
    and benchmark functions are taken to return.

    The definitions come first: the model of the header, then the vocabulary
    of the statements and the concrete inputs; the theorems follow. *)

From Stdlib Require Import ZArith List Lia Bool String Reals Lra Floats Permutation.
Import ListNotations.
Open Scope Z_scope.

(** ** Scalars *)

(** What the header needs of the arithmetic type under an [Accumulator]:
    [0], [+], [-], [*], division by a [size_t] count and [::sqrt]. *)
Class Scalar (S : Type) : Type := {
  s_zero : S;
  s_add : S -> S -> S;
  s_sub : S -> S -> S;
  s_mul : S -> S -> S;
  s_div_count : S -> Z -> S;
  s_sqrt : S -> S
}.

(** Exact arithmetic.  [Some r] is the finite value [r]; [None] is the result
    of an operation that has no finite value (IEEE would give NaN or an
    infinity), and it propagates. *)
Definition exact : Type := option R.

Definition exact_lift2 (f : R -> R -> R) (x y : exact) : exact :=
  match x, y with
  | Some a, Some b => Some (f a b)
  | _, _ => None
  end.

Definition exact_div_count (x : exact) (n : Z) : exact :=
  match x with
  | Some a => if n =? 0 then None else Some (a / IZR n)%R
  | None => None
  end.

Definition exact_sqrt (x : exact) : exact :=
  match x with
  | Some a => if Rlt_dec a 0 then None else Some (R_sqrt.sqrt a)
  | None => None
  end.

#[export] Instance exact_scalar : Scalar exact := {
  s_zero := Some 0%R;
  s_add := exact_lift2 Rplus;
  s_sub := exact_lift2 Rminus;
  s_mul := exact_lift2 Rmult;
  s_div_count := exact_div_count;
  s_sqrt := exact_sqrt
}.

(** IEEE 754 binary64.  A [size_t] count is converted to [double] by rounding
    to nearest, which is what [binary_normalize] does. *)
Definition double_of_size (n : Z) : float :=
  SF2Prim (binary_normalize prec emax n 0 false).

#[export] Instance double_scalar : Scalar float := {
  s_zero := 0%float;
  s_add := PrimFloat.add;
  s_sub := PrimFloat.sub;
  s_mul := PrimFloat.mul;
  s_div_count := fun x n => PrimFloat.div x (double_of_size n);
  s_sqrt := PrimFloat.sqrt
}.

(** ** The Accumulator capability *)

(** The operations [Benchmarker<Timer, Accumulator>] applies to an
    [Accumulator]: construction from a duration ([Accumulator(d)]), the zero
    the members start from ([mean_{0}]), [-], [+=], [/] by a [size_t],
    [detail::multiply], and [Accumulator(detail::sqrt(a))]. *)
Class AccumulatorOps (Duration Accumulator : Type) : Type := {
  acc_of_duration : Duration -> Accumulator;
  acc_zero : Accumulator;
  acc_sub : Accumulator -> Accumulator -> Accumulator;
  acc_add : Accumulator -> Accumulator -> Accumulator;
  acc_div : Accumulator -> Z -> Accumulator;
  acc_multiply : Accumulator -> Accumulator -> Accumulator;
  acc_sqrt : Accumulator -> Accumulator
}.

(** A [std::chrono::duration]-like wrapper: no [operator*] between two of
    them, but a [count()] member giving the magnitude. *)
Record duration (S : Type) : Type := mk_duration { count : S }.
Arguments mk_duration {S} _.
Arguments count {S} _.

Module detail.
Section Overloads.
Context {S : Type} `{Scalar S}.

(** [multiply(a1, a2) -> decltype(a1 * a2)]: the native operator. *)
Definition multiply (a1 a2 : S) : S := s_mul a1 a2.

(** [multiply] for types with [count()]:
    [Accumulator(a1.count() * a2.count())]. *)
Definition multiply_count (a1 a2 : duration S) : duration S :=
  mk_duration (s_mul (count a1) (count a2)).

(** [sqrt(a) -> decltype(::sqrt(a))]. *)
Definition sqrt (a : S) : S := s_sqrt a.

(** [sqrt(a) -> decltype(::sqrt(a.count()))]: a bare magnitude. *)
Definition sqrt_count (a : duration S) : S := s_sqrt (count a).
End Overloads.
End detail.

(** A plain scalar as [Accumulator]: every operation is the scalar's own. *)
#[export] Instance plain_accumulator {S : Type} `{Scalar S} : AccumulatorOps S S := {
  acc_of_duration := fun d => d;
  acc_zero := s_zero;
  acc_sub := s_sub;
  acc_add := s_add;
  acc_div := s_div_count;
  acc_multiply := detail.multiply;
  acc_sqrt := detail.sqrt
}.

(** A wrapper as [Accumulator]: [+], [-] and [/] are the wrapper's operators
    (on the magnitudes), [multiply] and [sqrt] go through [count()], and the
    result of [sqrt] is wrapped again by the [Accumulator(...)] conversion in
    [report]. *)
#[export] Instance wrapper_accumulator {S : Type} `{Scalar S} : AccumulatorOps S (duration S) := {
  acc_of_duration := fun d => mk_duration d;
  acc_zero := mk_duration s_zero;
  acc_sub := fun a b => mk_duration (s_sub (count a) (count b));
  acc_add := fun a b => mk_duration (s_add (count a) (count b));
  acc_div := fun a n => mk_duration (s_div_count (count a) n);
  acc_multiply := detail.multiply_count;
  acc_sqrt := fun a => mk_duration (detail.sqrt_count a)
}.

(** ** The Timer capability *)

(** [Timer::now()] is a static function reading a clock.  [now k] is the
    reading the k-th call returns (k from 0); [time_diff a b] is [a - b] on
    time points, a duration. *)
Class Timer (TimePoint Duration : Type) : Type := {
  now : nat -> TimePoint;
  time_diff : TimePoint -> TimePoint -> Duration
}.

(** A timer whose readings are scalars, as [cpu_timer] in the examples. *)
Definition scalar_timer {S : Type} `{Scalar S} (readings : nat -> S) : Timer S S :=
  {| now := readings; time_diff := s_sub |}.

(** ** The harness *)

(** [size_t] is an unsigned integer type of at least 16 bits; the model is
    generic in the number of bits above 16 (48 on an LP64 target). *)
Class Platform : Type := { extra_bits : N }.

Section Emb.

Context {platform : Platform}.

Definition size_bits : Z := 16 + Z.of_N extra_bits.
Definition size_modulus : Z := 2 ^ size_bits.
Definition SIZE_MAX : Z := size_modulus - 1.

(** Unsigned arithmetic wraps modulo [2 ^ size_bits]. *)
Definition size_wrap (z : Z) : Z := z mod size_modulus.

Context {TimePoint Duration Accumulator : Type}.
Context {timer : Timer TimePoint Duration}.
Context {ops : AccumulatorOps Duration Accumulator}.

(** *** [Benchmarker::State] *)

Record State : Type := mk_State {
  iterations_ : Z;                       (* const size_t iterations_ *)
  iteration_ : Z;                        (* size_t iteration_{0} *)
  mean_ : Accumulator;                   (* Accumulator mean_{0} *)
  squared_differences_ : Accumulator     (* Accumulator squared_differences_{0} *)
}.

(** [State(size_t iterations) : iterations_{iterations} {}] *)
Definition new_State (iterations : Z) : State :=
  {| iterations_ := iterations;
     iteration_ := 0;
     mean_ := acc_zero;
     squared_differences_ := acc_zero |}.

(** [void update(const duration& d)] *)
Definition update (s : State) (d : Duration) : State :=
  let iteration := size_wrap (iteration_ s + 1) in
  let value := acc_of_duration d in
  let delta := acc_sub value (mean_ s) in
  let mean := acc_add (mean_ s) (acc_div delta iteration) in
  let delta2 := acc_sub value mean in
  let squared := acc_add (squared_differences_ s) (acc_multiply delta delta2) in
  {| iterations_ := iterations_ s;
     iteration_ := iteration;
     mean_ := mean;
     squared_differences_ := squared |}.

(** [bool done() { return iteration_ >= iterations_; }] *)
Definition done (s : State) : bool := iteration_ s >=? iterations_ s.

(** The arguments of one call of [Reporter::report]. *)
Record Reported : Type := mk_Reported {
  rep_name : string;
  rep_iterations : Z;
  rep_mean : Accumulator;
  rep_sd : Accumulator
}.

(** [State::report<Reporter>(name)]: the call it makes. *)
Definition report (s : State) (name : string) : Reported :=
  {| rep_name := name;
     rep_iterations := iterations_ s;
     rep_mean := mean_ s;
     rep_sd := acc_sqrt (acc_div (squared_differences_ s)
                                 (size_wrap (iterations_ s - 1))) |}.

(** *** [State::Iterator] and its [IterationTimer] *)

(** The iterator holds a [State*]: the address of the one live [State], or
    [nullptr]. *)
Inductive pointer : Type := to_State | nullptr.

Definition pointer_eqb (p q : pointer) : bool :=
  match p, q with
  | to_State, to_State | nullptr, nullptr => true
  | _, _ => false
  end.

Record Iterator : Type := mk_Iterator { state : pointer }.

(** [State::begin()] returns [Iterator{this}], [State::end()] returns
    [Iterator{nullptr}]. *)
Definition begin : Iterator := {| state := to_State |}.
Definition end_ : Iterator := {| state := nullptr |}.

(** [operator!=] compares the two pointers. *)
Definition Iterator_ne (b1 b2 : Iterator) : bool :=
  negb (pointer_eqb (state b1) (state b2)).

(** The guard: a reference to the [State] (there is one) and the reading
    taken when it was made.  [operator*] builds its return value in place
    and [auto _ = *it] names that very object, so one constructor and one
    destructor run for each pass. *)
Record IterationTimer : Type := mk_IterationTimer { start : TimePoint }.

(** [IterationTimer(State& s) : state(s), start{Timer::now()}], with the
    number of clock readings made so far going in and out. *)
Definition IterationTimer_ctor (clock : nat) : IterationTimer * nat :=
  ({| start := now clock |}, S clock).

(** [~IterationTimer()]: read the clock, [state.update(now - start)]. *)
Definition IterationTimer_dtor (t : IterationTimer) (s : State) (clock : nat)
  : State * nat :=
  let now_ := now clock in
  (update s (time_diff now_ (start t)), S clock).

(** [operator*] builds the guard from [*state]; on a null [state] the
    behaviour is undefined ([None]). *)
Definition Iterator_deref (it : Iterator) (clock : nat)
  : option (IterationTimer * nat) :=
  match state it with
  | to_State => Some (IterationTimer_ctor clock)
  | nullptr => None
  end.

(** [operator++]: [if (state->done()) state = nullptr;]. *)
Definition Iterator_incr (it : Iterator) (s : State) : option Iterator :=
  match state it with
  | to_State => Some (if done s then {| state := nullptr |} else it)
  | nullptr => None
  end.

(** *** The range-for loop over a [State]

    A benchmark function written [for (auto _ : s) { body }] is, by the
    language's definition of the range-for statement,
[[
    auto it = s.begin(), e = s.end();
    for (; it != e; ++it) { auto _ = *it; body }
]]
    with [_], the guard, destroyed when the body's scope is left, on every
    way out of it.  The machine below runs this one statement at a time. *)

(** How one pass leaves the body's scope: by reaching its end, by
    [continue], by [break], or by [return] from the benchmark function. *)
Inductive Exit : Type := FallThrough | Continue | Break | Return.

Definition leaves_loop (e : Exit) : bool :=
  match e with
  | FallThrough | Continue => false
  | Break | Return => true
  end.

(** The body of the loop, as far as the harness sees it: how the pass
    numbered [k] (from 0) leaves. *)
Definition Body : Type := nat -> Exit.

Inductive Event : Type :=
| GuardCreated (t0 : TimePoint)
| GuardReleased (t0 t1 : TimePoint)
| StatisticsUpdated (d : Duration).

Inductive Point : Type :=
| AtCompare (it : Iterator)                              (* it != e *)
| AtDeref (it : Iterator)                                (* auto _ = *it *)
| InBody (it : Iterator) (g : IterationTimer)            (* body *)
| AtScopeEnd (it : Iterator) (g : IterationTimer) (e : Exit)   (* ~_ *)
| AtIncrement (it : Iterator)                            (* ++it *)
| LoopLeft
| Undefined.

Record Config : Type := mk_Config {
  point : Point;
  st : State;
  clock : nat;            (* calls of Timer::now() made so far *)
  passes : nat;           (* times the body has been entered *)
  trace : list Event
}.

Definition at_point (c : Config) (p : Point) : Config :=
  {| point := p; st := st c; clock := clock c; passes := passes c;
     trace := trace c |}.

Definition step (body : Body) (c : Config) : Config :=
  match point c with
  | AtCompare it =>
      if Iterator_ne it end_ then at_point c (AtDeref it)
      else at_point c LoopLeft
  | AtDeref it =>
      match Iterator_deref it (clock c) with
      | Some (g, k) =>
          {| point := InBody it g; st := st c; clock := k;
             passes := passes c;
             trace := trace c ++ [GuardCreated (start g)] |}
      | None => at_point c Undefined
      end
  | InBody it g =>
      {| point := AtScopeEnd it g (body (passes c)); st := st c;
         clock := clock c; passes := S (passes c); trace := trace c |}
  | AtScopeEnd it g e =>
      let t1 := now (clock c) in
      let (s', k) := IterationTimer_dtor g (st c) (clock c) in
      {| point := if leaves_loop e then LoopLeft else AtIncrement it;
         st := s'; clock := k; passes := passes c;
         trace := trace c ++ [GuardReleased (start g) t1;
                              StatisticsUpdated (time_diff t1 (start g))] |}
  | AtIncrement it =>
      match Iterator_incr it (st c) with
      | Some it' => at_point c (AtCompare it')
      | None => at_point c Undefined
      end
  | LoopLeft | Undefined => c
  end.

Fixpoint run (body : Body) (fuel : nat) (c : Config) : Config :=
  match fuel with
  | O => c
  | S fuel' => run body fuel' (step body c)
  end.

(** The loop statement is entered with [it = s.begin()]. *)
Definition enter (s : State) (clock0 : nat) : Config :=
  {| point := AtCompare begin; st := s; clock := clock0; passes := 0%nat;
     trace := [] |}.

(** Steps that are enough for the loop over a fresh [State] to be left: five
    per pass, and the last comparison. *)
Definition loop_fuel (s : State) : nat :=
  Z.to_nat (5 * Z.max 1 (iterations_ s) + 1).

Definition range_for_config (body : Body) (s : State) (clock0 : nat) : Config :=
  run body (loop_fuel s) (enter s clock0).

(** *** [Benchmarker] *)

(** [EvaluatorFunction], a pointer to a [void(State&)]: a benchmark function
    changes the [State] it is given and reads the clock. *)
Definition EvaluatorFunction : Type := State -> nat -> State * nat.

(** The benchmark function [for (auto _ : s) { body }]. *)
Definition range_for (body : Body) : EvaluatorFunction :=
  fun s clock0 =>
    let c := range_for_config body s clock0 in (st c, clock c).

Record Evaluator : Type := mk_Evaluator {
  name : string;
  function : EvaluatorFunction;
  iterations : Z
}.

Record Benchmarker : Type := mk_Benchmarker {
  default_iterations_ : Z;
  evaluators : list Evaluator
}.

(** [Benchmarker(size_t default_iterations = 1000)]: [None] is the call
    without the argument. *)
Definition new_Benchmarker (default_iterations : option Z) : Benchmarker :=
  {| default_iterations_ :=
       match default_iterations with Some n => n | None => 1000 end;
     evaluators := [] |}.

(** [registerBenchmark(name, e, iterations)] *)
Definition registerBenchmark (b : Benchmarker) (name : string)
  (e : EvaluatorFunction) (iterations : Z) : Benchmarker :=
  {| default_iterations_ := default_iterations_ b;
     evaluators := evaluators b ++ [mk_Evaluator name e iterations] |}.

(** [registerBenchmark(name, e)] *)
Definition registerBenchmark_default (b : Benchmarker) (name : string)
  (e : EvaluatorFunction) : Benchmarker :=
  {| default_iterations_ := default_iterations_ b;
     evaluators :=
       evaluators b ++ [mk_Evaluator name e (default_iterations_ b)] |}.

(** What [runBenchmarks] does that can be seen from outside. *)
Inductive RunEvent : Type :=
| FunctionReturned (name : string) (s : State)
| ReporterCalled (r : Reported).

(** One turn of the loop of [runBenchmarks]:
    [State s(e.iterations); e.function(s); s.report<Reporter>(e.name);] *)
Definition run_one (acc : nat * list RunEvent) (e : Evaluator)
  : nat * list RunEvent :=
  let s := new_State (iterations e) in
  let (s', clock') := function e s (fst acc) in
  (clock', snd acc ++ [FunctionReturned (name e) s';
                       ReporterCalled (report s' (name e))]).

(** [runBenchmarks<Reporter>()]: [for (auto& e : evaluators) ...]. *)
Definition runBenchmarks (b : Benchmarker) (clock0 : nat) : nat * list RunEvent :=
  fold_left run_one (evaluators b) (clock0, []).

Fixpoint reporter_calls (log : list RunEvent) : list Reported :=
  match log with
  | [] => []
  | ReporterCalled r :: log' => r :: reporter_calls log'
  | FunctionReturned _ _ :: log' => reporter_calls log'
  end.

(** *** Vocabulary for the statements below *)

(** The duration fed by a guard created at reading [k] and released at the
    next one: [now (k+1) - now k]. *)
Definition elapsed_at (k : nat) : Duration := time_diff (now (S k)) (now k).

(** The durations of [m] successive passes from reading [clock0] on. *)
Definition elapsed (clock0 m : nat) : list Duration :=
  map (fun i => elapsed_at (clock0 + 2 * i)) (seq 0 m).

(** What one whole pass leaves in the trace. *)
Definition pass_events (k : nat) : list Event :=
  [GuardCreated (now k); GuardReleased (now k) (now (S k));
   StatisticsUpdated (elapsed_at k)].

Definition passes_trace (clock0 m : nat) : list Event :=
  flat_map (fun i => pass_events (clock0 + 2 * i)) (seq 0 m).

Definition guards_created (tr : list Event) : nat :=
  List.length (filter (fun e => match e with GuardCreated _ => true | _ => false end) tr).

Definition guards_released (tr : list Event) : nat :=
  List.length (filter (fun e => match e with GuardReleased _ _ => true | _ => false end) tr).

Definition updates_done (tr : list Event) : nat :=
  List.length (filter (fun e => match e with StatisticsUpdated _ => true | _ => false end) tr).

(** The durations fed to [update], in order. *)
Definition fed (tr : list Event) : list Duration :=
  flat_map (fun e => match e with StatisticsUpdated d => [d] | _ => [] end) tr.

(** 1 when a guard is alive at this point of the loop, else 0. *)
Definition guard_live (p : Point) : nat :=
  match p with
  | InBody _ _ | AtScopeEnd _ _ _ => 1
  | _ => 0
  end.

(** The step of Welford's algorithm as the specification writes it, on the
    count [n], the mean and the sum of squared deviations [M2]. *)
Definition welford_step (n : Z) (mean M2 v : Accumulator)
  : Z * Accumulator * Accumulator :=
  let n' := n + 1 in
  let delta := acc_sub v mean in
  let mean' := acc_add mean (acc_div delta n') in
  let delta2 := acc_sub v mean' in
  (n', mean', acc_add M2 (acc_multiply delta delta2)).

(** A registration request: the arguments of one of the two overloads of
    [registerBenchmark] ([None]: the overload without a count). *)
Record Registration : Type := mk_Registration {
  reg_name : string;
  reg_function : EvaluatorFunction;
  reg_iterations : option Z
}.

Definition register (b : Benchmarker) (r : Registration) : Benchmarker :=
  match reg_iterations r with
  | Some n => registerBenchmark b (reg_name r) (reg_function r) n
  | None => registerBenchmark_default b (reg_name r) (reg_function r)
  end.

Definition register_all (b : Benchmarker) (rs : list Registration) : Benchmarker :=
  fold_left register rs b.

(** The count a registration ends up with on harness [b]. *)
Definition registered_count (b : Benchmarker) (r : Registration) : Z :=
  match reg_iterations r with
  | Some n => n
  | None => default_iterations_ b
  end.

(** *** Invariants of the loop *)

(** The shape of every reachable configuration, whatever the body does and
    whatever [State] [s0] the loop starts from at reading [clock0]: after
    [r] guards have been released the trace is [r] whole passes, a live guard
    adds its creation, and the [State] is [s0] updated with the [r]
    durations measured, in order. *)
Definition trace_inv (s0 : State) (clock0 : nat) (c : Config) : Prop :=
  exists r : nat,
    st c = fold_left update (elapsed clock0 r) s0 /\
    passes c = (r + match point c with AtScopeEnd _ _ _ => 1 | _ => 0 end)%nat /\
    match point c with
    | AtCompare _ | LoopLeft =>
        clock c = (clock0 + 2 * r)%nat /\ trace c = passes_trace clock0 r
    | AtDeref it | AtIncrement it =>
        state it = to_State /\
        clock c = (clock0 + 2 * r)%nat /\ trace c = passes_trace clock0 r
    | InBody it g | AtScopeEnd it g _ =>
        state it = to_State /\
        start g = now (clock0 + 2 * r) /\
        clock c = S (clock0 + 2 * r) /\
        trace c = passes_trace clock0 r ++ [GuardCreated (start g)]
    | Undefined => False
    end.

(** Counting passes over a fresh [State] made for [n]: with [i] the current
    [iteration_], [i] counts the passes and never exceeds [Z.max 1 n], the
    body is entered only while [i = 0] or [i < n], and the loop is left
    either on [n <= i] or by the body itself. *)
Definition count_inv (body : Body) (n : Z) (c : Config) : Prop :=
  let i := iteration_ (st c) in
  iterations_ (st c) = n /\
  0 <= i <= Z.max 1 n /\
  match point c with
  | AtCompare it =>
      Z.of_nat (passes c) = i /\
      match state it with
      | to_State => i = 0 \/ i < n
      | nullptr => n <= i
      end
  | AtDeref _ | InBody _ _ =>
      Z.of_nat (passes c) = i /\ (i = 0 \/ i < n)
  | AtScopeEnd _ _ e =>
      Z.of_nat (passes c) = i + 1 /\ (i = 0 \/ i < n) /\ e = body (Z.to_nat i)
  | AtIncrement _ =>
      Z.of_nat (passes c) = i /\ 1 <= i
  | LoopLeft =>
      Z.of_nat (passes c) = i /\
      (n <= i \/ (1 <= i /\ leaves_loop (body (Z.to_nat (i - 1))) = true))
  | Undefined => True
  end.

(** A body that never leaves the loop by itself. *)
Definition runs_through (body : Body) : Prop :=
  forall k, leaves_loop (body k) = false.

(** *** Vocabulary of the runner *)

(** A benchmark function cannot assign the [const] member [iterations_]. *)
Definition keeps_target (f : EvaluatorFunction) : Prop :=
  forall s k, iterations_ (fst (f s k)) = iterations_ s.

(** The clock after the benchmarks of [evs] have run from [clock0]. *)
Fixpoint clock_after (evs : list Evaluator) (clock0 : nat) : nat :=
  match evs with
  | [] => clock0
  | e :: evs' =>
      clock_after evs' (snd (function e (new_State (iterations e)) clock0))
  end.

(** The [State] each benchmark function of [evs] returns with, in order. *)
Fixpoint returned_states (evs : list Evaluator) (clock0 : nat) : list State :=
  match evs with
  | [] => []
  | e :: evs' =>
      let r := function e (new_State (iterations e)) clock0 in
      fst r :: returned_states evs' (snd r)
  end.

(** The two events of one benchmark: its function returns, the Reporter is
    called with what [report] builds from the [State] at that moment. *)
Definition turn_events (nm : string) (s : State) : list RunEvent :=
  [FunctionReturned nm s; ReporterCalled (report s nm)].

End Emb.

(** ** Reference statistics over the reals *)

Fixpoint Rsum (vs : list R) : R :=
  match vs with
  | [] => 0%R
  | v :: vs' => (v + Rsum vs')%R
  end.

Definition arithmetic_mean (vs : list R) : R :=
  (Rsum vs / INR (List.length vs))%R.

(** Sum of the squared deviations from [mu]. *)
Definition squared_deviations (mu : R) (vs : list R) : R :=
  Rsum (map (fun v => ((v - mu) * (v - mu))%R) vs).

(** The Bessel-corrected sample standard deviation. *)
Definition sample_sd (vs : list R) : R :=
  R_sqrt.sqrt (squared_deviations (arithmetic_mean vs) vs / (INR (List.length vs) - 1))%R.

(** Sum of the squares. *)
Definition Rsum_squares (vs : list R) : R :=
  Rsum (map (fun v => (v * v)%R) vs).

(** After [k] samples of sum [S] and sum of squares [Q]: the mean is [S / k]
    and [M2] is [Q - S * S / k], the sum of the squared deviations from it. *)
Definition welford_inv (k : nat) (S Q m M : R) : Prop :=
  (k = 0%nat /\ S = 0 /\ Q = 0 /\ m = 0 /\ M = 0)%R \/
  ((0 < k)%nat /\ m = S / INR k /\ M = Q - S * S / INR k)%R.

(** A clock whose readings are the finite values [readings k]. *)
Definition exact_timer (readings : nat -> R) : Timer exact exact :=
  scalar_timer (fun k => Some (readings k)).

(** The durations it makes [m] successive guards measure. *)
Definition measured (readings : nat -> R) (clock0 m : nat) : list R :=
  map (fun i => (readings (Datatypes.S (clock0 + 2 * i))
                 - readings (clock0 + 2 * i)%nat)%R)
      (seq 0 m).

(** ** The magnitudes under a wrapper *)

(** The magnitudes held by a [State] over the wrapper. *)
Definition State_count {S : Type} (s : @State (duration S)) : @State S :=
  {| iterations_ := iterations_ s;
     iteration_ := iteration_ s;
     mean_ := count (mean_ s);
     squared_differences_ := count (squared_differences_ s) |}.

Definition Config_count {S : Type} (c : @Config S S (duration S)) : @Config S S S :=
  {| point := point c;
     st := State_count (st c);
     clock := clock c;
     passes := passes c;
     trace := trace c |}.

(** ** Concrete runs *)

(** An LP64 target: [size_t] has 64 bits. *)
Definition lp64 : Platform := {| extra_bits := 48 |}.

(** A clock in [double], read at 0, 1, 1, 4, 4, 6 and then 100: three passes
    last 1, 3 and 2. *)
Definition demo_readings (k : nat) : float :=
  nth k [0; 1; 1; 4; 4; 6]%float 100%float.

Definition demo_timer : Timer float float := scalar_timer demo_readings.

(** [for (auto _ : s) {}] *)
Definition empty_body : Body := fun _ => FallThrough.

(** A body that breaks out of the loop in its second pass. *)
Definition breaking_body : Body :=
  fun k => match k with 1%nat => Break | _ => FallThrough end.

(** The configuration the loop over a fresh [State(n)] ends in, on the demo
    clock with a [double] accumulator. *)
Definition demo_run (body : Body) (n : Z) : Config :=
  range_for_config (platform := lp64) (timer := demo_timer)
    (ops := plain_accumulator) body (new_State n) 0.

Definition demo_report (body : Body) (n : Z) : Reported :=
  report (platform := lp64) (st (demo_run body n)) "demo"%string.

(** Two registrations on a harness with default 2: one without a count, one
    with 3 whose body breaks out in its second pass. *)
Definition demo_registrations : list (@Registration float) :=
  [ mk_Registration "empty"
      (range_for (platform := lp64) (timer := demo_timer) empty_body) None;
    mk_Registration "breaking"
      (range_for (platform := lp64) (timer := demo_timer) breaking_body) (Some 3) ].

(** A clock read at 0, 1, 1, 4, 4, 6: the empty loop for a target of three
    measures 1, 3 and 2. *)
Definition demo_exact_readings (k : nat) : R :=
  nth k [0; 1; 1; 4; 4; 6]%R 100%R.

(** A clock that advances by one at each reading. *)
Definition ticking_readings (k : nat) : R := INR k.

(** ** Benchmarks written as loops, and the example programs *)

(** A benchmark whose function is the loop [for (auto _ : s) { body }],
    registered under a name with an explicit count. *)
Record LoopBenchmark : Type := mk_LoopBenchmark {
  loop_name : string;
  loop_body : Body;
  loop_count : Z
}.

Section Programs.

Context {platform : Platform}.
Context {TimePoint Duration Accumulator : Type}.
Context {timer : Timer TimePoint Duration}.
Context {ops : AccumulatorOps Duration Accumulator}.

Definition loop_registration (l : LoopBenchmark) : @Registration Accumulator :=
  mk_Registration (loop_name l) (range_for (loop_body l)) (Some (loop_count l)).

(** The evaluator a loop benchmark is stored as. *)
Definition loop_evaluator (l : LoopBenchmark) : @Evaluator Accumulator :=
  mk_Evaluator (loop_name l) (range_for (loop_body l)) (loop_count l).

(** The clock readings a sequence of loop benchmarks takes when each loop
    runs to its count: two per pass. *)
Fixpoint readings_taken (ls : list LoopBenchmark) : nat :=
  match ls with
  | [] => 0
  | l :: ls' => 2 * Z.to_nat (loop_count l) + readings_taken ls'
  end.

(** What the Reporter is to hear of a sequence of loop benchmarks started at
    reading [clock0]: for each, in order, the report of a fresh [State]
    updated with the durations of its own passes, which start where the
    passes of the benchmark before it ended. *)
Fixpoint own_reports (ls : list LoopBenchmark) (clock0 : nat) : list Reported :=
  match ls with
  | [] => []
  | l :: ls' =>
      let n := Z.to_nat (loop_count l) in
      report (fold_left update (elapsed clock0 n) (new_State (loop_count l)))
             (loop_name l)
      :: own_reports ls' (clock0 + 2 * n)
  end.

(** The three benchmark functions of both example programs.  Each is a
    range-for loop over the [State] whose body, empty or a counting loop
    around [dontOptimize], always runs to its end. *)
Definition benchmark_empty : @EvaluatorFunction Accumulator :=
  range_for (fun _ => FallThrough).

Definition benchmark_loop : @EvaluatorFunction Accumulator :=
  range_for (fun _ => FallThrough).

Definition benchmark_loop_double : @EvaluatorFunction Accumulator :=
  range_for (fun _ => FallThrough).

(** [main] of [examples/stl_ctime/main.cpp]: a harness with default 100, the
    first two benchmarks registered without a count (the second through
    [EMB_MAKE_BENCHMARK], which names it after the function), the third with
    110, then [runBenchmarks]. *)
Definition stl_ctime_main (clock0 : nat) : nat * list RunEvent :=
  let benchmarker := new_Benchmarker (Some 100) in
  let benchmarker :=
    registerBenchmark_default benchmarker "benchmark_empty" benchmark_empty in
  let benchmarker :=
    registerBenchmark_default benchmarker "benchmark_loop" benchmark_loop in
  let benchmarker :=
    registerBenchmark benchmarker "benchmark_loop_double" benchmark_loop_double 110 in
  runBenchmarks benchmarker clock0.

(** [main] of [examples/stl_chrono/main.cpp]: the same with default 100000
    and 12000 for the third. *)
Definition stl_chrono_main (clock0 : nat) : nat * list RunEvent :=
  let benchmarker := new_Benchmarker (Some 100000) in
  let benchmarker :=
    registerBenchmark_default benchmarker "benchmark_empty" benchmark_empty in
  let benchmarker :=
    registerBenchmark_default benchmarker "benchmark_loop" benchmark_loop in
  let benchmarker :=
    registerBenchmark benchmarker "benchmark_loop_double" benchmark_loop_double 12000 in
  runBenchmarks benchmarker clock0.

End Programs.

(** The benchmarks of the example programs, as loop benchmarks with the
    counts they end up registered with. *)
Definition example_loops (default third : Z) : list LoopBenchmark :=
  [ mk_LoopBenchmark "benchmark_empty" (fun _ => FallThrough) default;
    mk_LoopBenchmark "benchmark_loop" (fun _ => FallThrough) default;
    mk_LoopBenchmark "benchmark_loop_double" (fun _ => FallThrough) third ].

(** The first pass at which a body leaves the loop is [j]. *)
Definition first_leaves_at (body : Body) (j : nat) : Prop :=
  (forall i, (i < j)%nat -> leaves_loop (body i) = false) /\
  leaves_loop (body j) = true.

(** A body that breaks out of the loop in the pass numbered [j]. *)
Definition breaks_at (j : nat) : Body :=
  fun k => if Nat.eqb k j then Break else FallThrough.

(** ** Facts about the harness, for every timer and accumulator *)

Section EmbFacts.

Context {platform : Platform}.
Context {TimePoint Duration Accumulator : Type}.
Context {timer : Timer TimePoint Duration}.
Context {ops : AccumulatorOps Duration Accumulator}.

Local Abbreviation State := (@State Accumulator).
Local Abbreviation Event := (@Event TimePoint Duration).
Local Abbreviation Config := (@Config TimePoint Duration Accumulator).
Local Abbreviation EvaluatorFunction := (@EvaluatorFunction Accumulator).
Local Abbreviation Evaluator := (@Evaluator Accumulator).
Local Abbreviation Benchmarker := (@Benchmarker Accumulator).
Local Abbreviation Registration := (@Registration Accumulator).
Local Abbreviation RunEvent := (@RunEvent Accumulator).

Lemma size_modulus_large : 65536 <= size_modulus.
Proof.
  unfold size_modulus, size_bits.
  change 65536 with (2 ^ 16).
  apply Z.pow_le_mono_r; lia.
Qed.

Lemma SIZE_MAX_large : 65535 <= SIZE_MAX.
Proof. unfold SIZE_MAX. pose proof size_modulus_large. lia. Qed.

Lemma size_wrap_small (z : Z) : 0 <= z <= SIZE_MAX -> size_wrap z = z.
Proof.
  unfold size_wrap, SIZE_MAX. intros Hz.
  apply Z.mod_small. lia.
Qed.

(** [0 - 1] on [size_t] is [SIZE_MAX]. *)
Lemma size_wrap_minus_one : size_wrap (0 - 1) = SIZE_MAX.
Proof.
  unfold size_wrap, SIZE_MAX.
  pose proof size_modulus_large as Hm.
  replace (0 - 1) with ((size_modulus - 1) + (-1) * size_modulus) by lia.
  rewrite Z.mod_add by lia.
  apply Z.mod_small. lia.
Qed.

Lemma update_iterations_ (s : State) (d : Duration) :
  iterations_ (update s d) = iterations_ s.
Proof. reflexivity. Qed.

Lemma update_iteration_ (s : State) (d : Duration) :
  0 <= iteration_ s < SIZE_MAX ->
  iteration_ (update s d) = iteration_ s + 1.
Proof.
  intros Hi. unfold update. cbn [iteration_].
  apply size_wrap_small. lia.
Qed.

Lemma fold_update_iterations_ (ds : list Duration) (s : State) :
  iterations_ (fold_left update ds s) = iterations_ s.
Proof.
  revert s. induction ds as [|d ds IH]; intros s; cbn [fold_left].
  - reflexivity.
  - rewrite IH. apply update_iterations_.
Qed.

Lemma fold_update_iteration_ (ds : list Duration) (s : State) :
  0 <= iteration_ s ->
  iteration_ s + Z.of_nat (List.length ds) <= SIZE_MAX ->
  iteration_ (fold_left update ds s) = iteration_ s + Z.of_nat (List.length ds).
Proof.
  revert s. induction ds as [|d ds IH]; intros s H0 Hmax; cbn [fold_left List.length] in *.
  - lia.
  - rewrite IH; rewrite update_iteration_ by lia; lia.
Qed.

(** *** Running the machine *)

Lemma run_add (body : Body) (a b : nat) (c : Config) :
  run body (a + b) c = run body b (run body a c).
Proof.
  revert c. induction a as [|a IH]; intros c; cbn [run Nat.add].
  - reflexivity.
  - apply IH.
Qed.

Lemma step_LoopLeft (body : Body) (c : Config) :
  point c = LoopLeft -> step body c = c.
Proof. intros Hp. unfold step. rewrite Hp. reflexivity. Qed.

Lemma run_LoopLeft (body : Body) (k : nat) (c : Config) :
  point c = LoopLeft -> run body k c = c.
Proof.
  revert c. induction k as [|k IH]; intros c Hp; cbn [run].
  - reflexivity.
  - rewrite step_LoopLeft by exact Hp. apply IH, Hp.
Qed.

Lemma run_S_r (body : Body) (k : nat) (c : Config) :
  run body (S k) c = step body (run body k c).
Proof.
  replace (S k) with (k + 1)%nat by lia.
  rewrite run_add. reflexivity.
Qed.

Lemma elapsed_S (clock0 m : nat) :
  elapsed clock0 (S m) = elapsed clock0 m ++ [elapsed_at (clock0 + 2 * m)].
Proof.
  unfold elapsed. rewrite seq_S, map_app. reflexivity.
Qed.

Lemma elapsed_length (clock0 m : nat) : List.length (elapsed clock0 m) = m.
Proof. unfold elapsed. rewrite length_map, length_seq. reflexivity. Qed.

Lemma passes_trace_S (clock0 m : nat) :
  passes_trace clock0 (S m) =
  passes_trace clock0 m ++ pass_events (clock0 + 2 * m).
Proof.
  unfold passes_trace. rewrite seq_S, flat_map_app.
  cbn [flat_map]. rewrite app_nil_r. reflexivity.
Qed.

(** *** The shape of every reachable configuration

    Whatever the body does and whatever [State] the loop starts from: after
    [r] guards have been released the trace is [r] whole passes, a live guard
    adds its creation, each released guard fed the difference of the two
    readings it took, and the [State] is the starting one updated with those
    differences in order. *)
Lemma trace_inv_enter (s0 : State) (clock0 : nat) :
  trace_inv s0 clock0 (enter s0 clock0).
Proof.
  exists 0%nat. cbn. repeat split; lia.
Qed.

Lemma trace_inv_step (body : Body) (s0 : State) (clock0 : nat) (c : Config) :
  trace_inv s0 clock0 c -> trace_inv s0 clock0 (step body c).
Proof.
  intros [r [Hst [Hps Hp]]]. destruct c as [p s k ps tr].
  cbn [point st clock trace passes] in *.
  unfold step; cbn [point st clock trace passes].
  destruct p as [it|it|it g|it g e|it| |].
  - destruct Hp as [Hk Htr].
    destruct it as [[|]]; cbn; exists r; cbn; auto.
  - destruct Hp as [Hit [Hk Htr]].
    unfold Iterator_deref. rewrite Hit. cbn.
    exists r. cbn. subst k tr. auto 6.
  - exists r. cbn. intuition lia.
  - destruct Hp as [Hit [Hg [Hk Htr]]].
    exists (S r). cbn [IterationTimer_dtor point st clock trace passes].
    split; [|split].
    + rewrite elapsed_S, fold_left_app. cbn [fold_left].
      unfold elapsed_at. subst k. rewrite Hg, Hst. reflexivity.
    + destruct (leaves_loop e); lia.
    + assert (Hc : S k = (clock0 + 2 * S r)%nat) by lia.
      assert (Ht : tr ++ [GuardReleased (start g) (now k);
                          StatisticsUpdated (time_diff (now k) (start g))]
                   = passes_trace clock0 (S r)).
      { rewrite passes_trace_S, Htr, <- app_assoc. unfold pass_events, elapsed_at.
        subst k. rewrite Hg. reflexivity. }
      destruct (leaves_loop e); cbn; auto.
  - destruct Hp as [Hit [Hk Htr]].
    unfold Iterator_incr. rewrite Hit. cbn.
    exists r. cbn. auto.
  - exists r. cbn. auto.
  - destruct Hp.
Qed.

Lemma trace_inv_run (body : Body) (s0 : State) (clock0 k : nat) :
  trace_inv s0 clock0 (run body k (enter s0 clock0)).
Proof.
  induction k as [|k IH].
  - apply trace_inv_enter.
  - rewrite run_S_r. apply trace_inv_step, IH.
Qed.

(** Counting the events of whole passes. *)
Lemma guards_created_app (t1 t2 : list Event) :
  guards_created (t1 ++ t2) = (guards_created t1 + guards_created t2)%nat.
Proof. unfold guards_created. rewrite filter_app, length_app. reflexivity. Qed.

Lemma guards_released_app (t1 t2 : list Event) :
  guards_released (t1 ++ t2) = (guards_released t1 + guards_released t2)%nat.
Proof. unfold guards_released. rewrite filter_app, length_app. reflexivity. Qed.

Lemma updates_done_app (t1 t2 : list Event) :
  updates_done (t1 ++ t2) = (updates_done t1 + updates_done t2)%nat.
Proof. unfold updates_done. rewrite filter_app, length_app. reflexivity. Qed.

Lemma fed_app (t1 t2 : list Event) : fed (t1 ++ t2) = fed t1 ++ fed t2.
Proof. unfold fed. apply flat_map_app. Qed.

Lemma passes_trace_counts (clock0 r : nat) :
  guards_created (passes_trace clock0 r) = r /\
  guards_released (passes_trace clock0 r) = r /\
  updates_done (passes_trace clock0 r) = r /\
  fed (passes_trace clock0 r) = elapsed clock0 r.
Proof.
  induction r as [|r [IH1 [IH2 [IH3 IH4]]]].
  - repeat split; reflexivity.
  - rewrite passes_trace_S, guards_created_app, guards_released_app,
      updates_done_app, fed_app, elapsed_S, IH1, IH2, IH3, IH4.
    cbn. repeat split; lia.
Qed.

(** *** Counting passes over a fresh [State]

    With [i] the current [iteration_] and [n] the target: [i] counts the
    passes, never exceeds [Z.max 1 n], the body is entered only while
    [i = 0] or [i < n], and the loop is left either on [n <= i] or by the
    body itself. *)
Lemma count_inv_enter (body : Body) (n : Z) (clock0 : nat) :
  0 <= n -> count_inv body n (enter (new_State n) clock0 : Config).
Proof.
  intros Hn. unfold count_inv. cbn. repeat split; lia.
Qed.

Lemma count_inv_step (body : Body) (n : Z) (c : Config) :
  0 <= n <= SIZE_MAX ->
  count_inv body n c -> count_inv body n (step body c).
Proof.
  intros Hn [Hits [Hi Hp]]. pose proof SIZE_MAX_large as Hmax.
  destruct c as [p s k ps tr].
  cbn [point st clock trace passes] in *.
  unfold count_inv, step; cbn [point st clock trace passes].
  destruct p as [it|it|it g|it g e|it| |].
  - destruct Hp as [Hps Hit].
    destruct it as [[|]]; cbn in *; auto.
  - destruct it as [[|]]; cbn; auto.
  - cbn. destruct Hp as [Hps Hlt]. repeat split; try lia.
    rewrite <- Hps, Nat2Z.id. reflexivity.
  - destruct Hp as [Hps [Hlt He]].
    cbn [IterationTimer_dtor point st clock trace passes].
    rewrite update_iterations_.
    rewrite update_iteration_ by lia.
    split; [exact Hits|]. split; [lia|].
    destruct (leaves_loop e) eqn:Hl; cbn.
    + split; [lia|]. right. split; [lia|].
      replace (iteration_ s + 1 - 1) with (iteration_ s) by lia.
      rewrite <- He. exact Hl.
    + split; lia.
  - destruct Hp as [Hps H1].
    destruct it as [[|]]; cbn; auto.
    unfold done.
    destruct (Z.geb_spec (iteration_ s) (iterations_ s)); cbn;
      repeat split; try lia.
  - cbn. auto.
  - cbn. auto.
Qed.

Lemma count_inv_run (body : Body) (n : Z) (clock0 k : nat) :
  0 <= n <= SIZE_MAX ->
  count_inv body n (run body k (enter (new_State n) clock0)).
Proof.
  intros Hn. induction k as [|k IH].
  - apply count_inv_enter. lia.
  - rewrite run_S_r. apply count_inv_step; assumption.
Qed.

(** *** Leaving the loop *)

(** One pass, from the comparison that lets it in to the next comparison
    (or out of the loop, when the body leaves it). *)
Lemma run_one_pass (body : Body) (c : Config) :
  point c = AtCompare begin ->
  run body 5 c =
  let s' := update (st c) (elapsed_at (clock c)) in
  {| point := if leaves_loop (body (passes c)) then LoopLeft
              else AtCompare (if done s' then end_ else begin);
     st := s';
     clock := S (S (clock c));
     passes := S (passes c);
     trace := trace c ++ pass_events (clock c) |}.
Proof.
  intros Hp. destruct c as [p s k ps tr]. cbn [point] in Hp. subst p.
  cbn [run step point st clock passes trace Iterator_ne begin end_ state
       pointer_eqb negb Iterator_deref IterationTimer_ctor
       IterationTimer_dtor start at_point].
  unfold pass_events, elapsed_at. rewrite <- app_assoc. cbn [app].
  destruct (leaves_loop (body ps)); cbn; reflexivity.
Qed.

Lemma loop_left_after (body : Body) (m : nat) :
  forall c : Config,
    point c = AtCompare begin ->
    0 <= iteration_ (st c) ->
    iterations_ (st c) <= iteration_ (st c) + Z.of_nat (S m) ->
    iteration_ (st c) + Z.of_nat (S m) <= SIZE_MAX ->
    point (run body (5 * S m + 1) c) = LoopLeft.
Proof.
  induction m as [|m IH]; intros c Hp H0 Hn Hmax.
  - replace (5 * 1 + 1)%nat with (5 + 1)%nat by lia.
    rewrite run_add, run_one_pass by exact Hp. cbn zeta.
    destruct (leaves_loop (body (passes c))); [reflexivity|].
    unfold done. rewrite update_iterations_, update_iteration_ by lia.
    destruct (Z.geb_spec (iteration_ (st c) + 1) (iterations_ (st c))); [reflexivity|lia].
  - replace (5 * S (S m) + 1)%nat with (5 + (5 * S m + 1))%nat by lia.
    rewrite run_add, run_one_pass by exact Hp. cbn zeta.
    destruct (leaves_loop (body (passes c))).
    + rewrite run_LoopLeft; reflexivity.
    + unfold done. rewrite update_iterations_, update_iteration_ by lia.
      destruct (Z.geb_spec (iteration_ (st c) + 1) (iterations_ (st c))).
      * replace (5 * S m + 1)%nat with (S (5 * S m)) by lia.
        cbn [run]. rewrite run_LoopLeft; reflexivity.
      * apply IH; cbn [point st];
          rewrite ?update_iterations_, ?update_iteration_ by lia; try lia.
        reflexivity.
Qed.

(** The loop over a fresh [State] is always left, whatever the body. *)
Lemma range_for_leaves (body : Body) (n : Z) (clock0 : nat) :
  0 <= n <= SIZE_MAX ->
  point (range_for_config body (new_State n) clock0) = LoopLeft.
Proof.
  intros Hn. pose proof SIZE_MAX_large as Hmax.
  unfold range_for_config, loop_fuel. cbn [iterations_ new_State].
  replace (Z.to_nat (5 * Z.max 1 n + 1))
    with (5 * S (Z.to_nat (Z.max 1 n - 1)) + 1)%nat by lia.
  apply loop_left_after; cbn; try lia. reflexivity.
Qed.

(** The loop run to completion, for a target of at least 1: [n] passes, and
    a [State] updated with the [n] durations measured. *)
Lemma range_for_complete (body : Body) (n : Z) (clock0 : nat) :
  runs_through body ->
  1 <= n <= SIZE_MAX ->
  let c := range_for_config body (new_State n) clock0 in
  point c = LoopLeft /\
  passes c = Z.to_nat n /\
  clock c = (clock0 + 2 * Z.to_nat n)%nat /\
  trace c = passes_trace clock0 (Z.to_nat n) /\
  st c = fold_left update (elapsed clock0 (Z.to_nat n)) (new_State n) /\
  iteration_ (st c) = n.
Proof.
  intros Hbody Hn c.
  assert (Hleft : point c = LoopLeft) by (apply range_for_leaves; lia).
  pose proof (count_inv_run body n clock0 (loop_fuel (new_State n))) as Hc.
  pose proof (trace_inv_run body (new_State n) clock0 (loop_fuel (new_State n))) as Ht.
  fold (range_for_config body (new_State n) clock0) in Hc, Ht. fold c in Hc, Ht.
  destruct Hc as [Hits [Hi Hp]]; [lia|].
  destruct Ht as [r [Hst [Hps Htr]]].
  rewrite Hleft in Hp, Hps, Htr.
  destruct Hp as [Hpi Hex]. destruct Htr as [Hk Htr].
  assert (Hin : iteration_ (st c) = n).
  { destruct Hex as [Hle|[_ Hl]]; [lia|]. rewrite Hbody in Hl. discriminate. }
  assert (Hr : r = Z.to_nat n) by lia.
  subst r. repeat split; try assumption; lia.
Qed.

(** *** The statistics update *)

(** C2: a call of [update] with sample [d], on a [State] whose count has
    room to grow, is one step of Welford's algorithm on the sample converted
    to the Accumulator: the count goes up by one, the mean moves by
    [delta / n], [M2] grows by [delta * delta2] with [delta2] taken against
    the new mean; the target [iterations_] is the one field left as it was. *)
Theorem update_is_welford_step (s : State) (d : Duration) :
  0 <= iteration_ s < SIZE_MAX ->
  let w := welford_step (iteration_ s) (mean_ s) (squared_differences_ s)
             (acc_of_duration d) in
  update s d =
    {| iterations_ := iterations_ s;
       iteration_ := fst (fst w);
       mean_ := snd (fst w);
       squared_differences_ := snd w |} /\
  iteration_ (update s d) = iteration_ s + 1.
Proof.
  intros Hi w. subst w. unfold welford_step. cbn [fst snd].
  assert (Hw : size_wrap (iteration_ s + 1) = iteration_ s + 1)
    by (apply size_wrap_small; lia).
  split.
  - unfold update. rewrite Hw. reflexivity.
  - apply update_iteration_. exact Hi.
Qed.

(** *** The guard *)

(** C9: in every configuration the loop can reach, from any [State], under
    any body and so on every way out of the body's scope: the trace is made
    of whole passes, each a guard created at one clock reading, released at
    the next, and feeding [update] the difference of the two, followed by
    the creation of the guard still alive, if one is; as many updates have
    been done as guards released; the guards created are those released and
    the live one; the [State] is the starting one updated with the durations
    fed, in order; and no null iterator is ever used.  Once the loop is left
    no guard is alive. *)
Theorem every_guard_feeds_one_update (body : Body) (s0 : State) (clock0 k : nat) :
  let c := run body k (enter s0 clock0) in
  let r := guards_released (trace c) in
  trace c = passes_trace clock0 r ++
            match guard_live (point c) with
            | O => []
            | S _ => [GuardCreated (now (clock0 + 2 * r))]
            end /\
  updates_done (trace c) = r /\
  guards_created (trace c) = (r + guard_live (point c))%nat /\
  fed (trace c) = elapsed clock0 r /\
  st c = fold_left update (fed (trace c)) s0 /\
  point c <> Undefined /\
  (point c = LoopLeft -> guards_created (trace c) = passes c /\ r = passes c).
Proof.
  intros c r.
  destruct (trace_inv_run body s0 clock0 k) as [r' [Hst [Hps Hp]]].
  fold c in Hst, Hps, Hp.
  destruct (passes_trace_counts clock0 r') as [Hc [Hr [Hu Hf]]].
  assert (Hcase :
    (guard_live (point c) = 0%nat /\ trace c = passes_trace clock0 r' /\
     point c <> Undefined /\ (point c = LoopLeft -> passes c = r')) \/
    (guard_live (point c) = 1%nat /\
     trace c = passes_trace clock0 r' ++ [GuardCreated (now (clock0 + 2 * r'))] /\
     point c <> Undefined /\ point c <> LoopLeft)).
  { destruct (point c) as [it|it|it g|it g e|it| |]; cbn [guard_live].
    - left. intuition (try discriminate). 
    - left. intuition (try discriminate).
    - right. destruct Hp as [_ [Hg [_ Ht]]]. rewrite Hg in Ht.
      intuition discriminate.
    - right. destruct Hp as [_ [Hg [_ Ht]]]. rewrite Hg in Ht.
      intuition discriminate.
    - left. intuition (try discriminate).
    - left. intuition (try discriminate). lia.
    - destruct Hp. }
  destruct Hcase as [[Hl [Ht [Hu' Hx]]]|[Hl [Ht [Hu' Hx]]]].
  - assert (Hrr : r = r') by (subst r; rewrite Ht; exact Hr).
    rewrite Hl, Hrr. rewrite Ht at 1 2 3 4 5.
    rewrite app_nil_r, Hc, Hu, Hf, Nat.add_0_r.
    repeat split; try assumption.
    + rewrite Ht, Hc. symmetry. auto.
    + symmetry. auto.
  - assert (Hrr : r = r').
    { subst r. rewrite Ht, guards_released_app, Hr. cbn. lia. }
    rewrite Hl, Hrr. rewrite Ht at 1 2 3 4 5.
    rewrite guards_created_app, updates_done_app, fed_app, Hc, Hu, Hf.
    cbn. rewrite app_nil_r, Nat.add_0_r.
    repeat split; try assumption; try lia; contradiction.
Qed.

(** *** A target of zero *)

(** The loop over a [State] made for zero iterations, under any body: the
    first comparison is [begin() != end()], which holds whatever the counts
    are, so one pass is made before [done()] is ever consulted. *)
Lemma zero_target_config (body : Body) (clock0 : nat) :
  range_for_config body (new_State 0) clock0 =
  {| point := LoopLeft;
     st := update (new_State 0) (elapsed_at clock0);
     clock := S (S clock0);
     passes := 1;
     trace := pass_events clock0 |}.
Proof.
  pose proof SIZE_MAX_large as Hmax.
  unfold range_for_config, loop_fuel. cbn [iterations_ new_State].
  change (Z.to_nat (5 * Z.max 1 0 + 1)) with (5 + 1)%nat.
  rewrite run_add, run_one_pass by reflexivity. cbn zeta.
  cbn [enter st clock passes trace app].
  destruct (leaves_loop (body 0%nat)); [reflexivity|].
  unfold done. rewrite update_iterations_, update_iteration_ by (cbn; lia).
  cbn [new_State iterations_ iteration_]. reflexivity.
Qed.

(** C6, at a target of zero: the loop body is entered once, [update] is
    called once, and the loop is left with [iteration_ = 1] above
    [iterations_ = 0]. *)
Theorem zero_target_runs_one_pass (body : Body) (clock0 : nat) :
  let c := range_for_config body (new_State 0) clock0 in
  point c = LoopLeft /\
  passes c = 1%nat /\
  updates_done (trace c) = 1%nat /\
  iterations_ (st c) = 0 /\
  iteration_ (st c) = 1.
Proof.
  intros c. subst c. rewrite zero_target_config. cbn [point passes trace st].
  pose proof SIZE_MAX_large as Hmax.
  rewrite update_iterations_, update_iteration_ by (cbn; lia).
  repeat split; reflexivity.
Qed.

(** The loop for a target of at least one, under a body that never leaves
    it: at every step [0 <= iteration_ <= iterations_]; the comparison
    against the sentinel fails exactly when the two counts are equal; the
    loop is left only then; and it is left, after exactly [n] passes. *)
Theorem positive_target_runs_n_passes (body : Body) (n : Z) (clock0 k : nat) :
  runs_through body ->
  1 <= n <= SIZE_MAX ->
  let c := run body k (enter (new_State n) clock0) in
  let final := range_for_config body (new_State n) clock0 in
  0 <= iteration_ (st c) <= iterations_ (st c) /\
  iterations_ (st c) = n /\
  (forall it, point c = AtCompare it ->
     (Iterator_ne it end_ = false <-> iteration_ (st c) = iterations_ (st c))) /\
  (point c = LoopLeft -> iteration_ (st c) = iterations_ (st c)) /\
  point final = LoopLeft /\
  passes final = Z.to_nat n /\
  iteration_ (st final) = n.
Proof.
  intros Hbody Hn c final.
  destruct (count_inv_run body n clock0 k) as [Hits [Hi Hp]]; [lia|].
  fold c in Hits, Hi, Hp.
  destruct (range_for_complete body n clock0 Hbody Hn) as [Hl [Hps [_ [_ [_ Hfin]]]]].
  fold final in Hl, Hps, Hfin.
  split; [lia|]. split; [exact Hits|].
  split; [|split; [|split; [exact Hl|split; [exact Hps|exact Hfin]]]].
  - intros it Hat. rewrite Hat in Hp. destruct Hp as [_ Hit].
    destruct it as [[|]]; cbn in *; split; intros Hx;
      try discriminate; try reflexivity; lia.
  - intros Hleft. rewrite Hleft in Hp. destruct Hp as [_ [Hle|[_ Hlv]]]; [lia|].
    rewrite Hbody in Hlv. discriminate.
Qed.

(** *** Reporting *)

(** C7: when the loop over a [State] made for [n >= 1] has been driven to
    its end, under any timer and accumulator, the standard deviation
    [report] hands to the Reporter is the root, taken back into the
    Accumulator, of [M2] divided by the number of samples accumulated minus
    one, where [M2] is the sum the [State] accumulated over exactly those
    samples and their number is the number of updates made; and this is the
    call [runBenchmarks] makes for such a benchmark. *)
Theorem report_sd_over_samples_accumulated
  (body : Body) (n : Z) (clock0 : nat) (nm : string) :
  runs_through body ->
  1 <= n <= SIZE_MAX ->
  let final : Config := range_for_config body (new_State n) clock0 in
  let samples := updates_done (trace final) in
  point final = LoopLeft /\
  Z.of_nat samples = n /\
  iteration_ (st final) = Z.of_nat samples /\
  st final = fold_left update (fed (trace final)) (new_State n) /\
  rep_sd (report (st final) nm) =
    acc_sqrt (acc_div (squared_differences_ (st final)) (Z.of_nat samples - 1)) /\
  snd (run_one (clock0, []) (mk_Evaluator nm (range_for body) n)) =
    [FunctionReturned nm (st final); ReporterCalled (report (st final) nm)].
Proof.
  intros Hbody Hn final samples.
  destruct (range_for_complete body n clock0 Hbody Hn)
    as [Hl [_ [_ [Htr [Hst Hit]]]]].
  fold final in Hl, Htr, Hst, Hit.
  destruct (passes_trace_counts clock0 (Z.to_nat n)) as [_ [_ [Hu Hf]]].
  assert (Hs : samples = Z.to_nat n) by (unfold samples; rewrite Htr; exact Hu).
  assert (Hits : iterations_ (st final) = n)
    by (rewrite Hst; apply fold_update_iterations_).
  split; [exact Hl|]. split; [lia|]. split; [lia|].
  split; [rewrite Htr, Hf; exact Hst|]. split.
  - unfold report. cbn [rep_sd]. rewrite Hits, size_wrap_small by lia.
    rewrite Hs, Z2Nat.id by lia. reflexivity.
  - reflexivity.
Qed.

(** *** Registering and running *)

Lemma register_all_spec (rs : list Registration) :
  forall b : Benchmarker,
    default_iterations_ (register_all b rs) = default_iterations_ b /\
    evaluators (register_all b rs) =
      evaluators b ++
      map (fun r => mk_Evaluator (reg_name r) (reg_function r) (registered_count b r)) rs.
Proof.
  induction rs as [|r rs IH]; intros b; cbn [register_all fold_left map].
  - rewrite app_nil_r. split; reflexivity.
  - destruct (IH (register b r)) as [Hd He].
    unfold register_all in Hd, He. rewrite Hd, He.
    assert (Hdr : default_iterations_ (register b r) = default_iterations_ b)
      by (unfold register; destruct (reg_iterations r); reflexivity).
    split; [exact Hdr|].
    assert (Her : evaluators (register b r) =
                  evaluators b ++
                  [mk_Evaluator (reg_name r) (reg_function r) (registered_count b r)])
      by (unfold register, registered_count; destruct (reg_iterations r); reflexivity).
    rewrite Her, <- app_assoc. cbn [app]. do 2 f_equal.
    apply map_ext. intros r'. unfold registered_count. rewrite Hdr. reflexivity.
Qed.

Lemma returned_states_length (evs : list Evaluator) :
  forall clock0, List.length (returned_states evs clock0) = List.length evs.
Proof.
  induction evs as [|e evs IH]; intros k; cbn [returned_states List.length].
  - reflexivity.
  - rewrite IH. reflexivity.
Qed.

Lemma fold_run_one (evs : list Evaluator) :
  forall (k : nat) (log : list RunEvent),
    fold_left run_one evs (k, log) =
    (clock_after evs k,
     log ++ flat_map (fun ns => turn_events (fst ns) (snd ns))
              (combine (map name evs) (returned_states evs k))).
Proof.
  induction evs as [|e evs IH]; intros k log;
    cbn [fold_left clock_after returned_states map combine flat_map].
  - rewrite app_nil_r. reflexivity.
  - unfold run_one at 2. cbn [fst snd].
    destruct (function e (new_State (iterations e)) k) as [s' k'] eqn:Hf.
    rewrite IH. cbn [fst snd]. rewrite <- app_assoc. reflexivity.
Qed.

Lemma reporter_calls_turns (nss : list (string * State)) :
  reporter_calls (flat_map (fun ns => turn_events (fst ns) (snd ns)) nss) =
  map (fun ns => report (snd ns) (fst ns)) nss.
Proof.
  induction nss as [|ns nss IH]; cbn [flat_map map].
  - reflexivity.
  - cbn [turn_events app reporter_calls]. rewrite IH. reflexivity.
Qed.

Lemma returned_states_iterations (evs : list Evaluator) :
  Forall (fun e => forall s k, iterations_ (fst (function e s k)) = iterations_ s) evs ->
  forall clock0,
    map iterations_ (returned_states evs clock0) = map iterations evs.
Proof.
  induction 1 as [|e evs He _ IH]; intros k; cbn [returned_states map].
  - reflexivity.
  - rewrite IH, He. reflexivity.
Qed.

Lemma returned_states_nth (l1 l2 : list Evaluator) (e : Evaluator) :
  forall clock0,
    nth_error (returned_states (l1 ++ e :: l2) clock0) (List.length l1) =
    Some (fst (function e (new_State (iterations e)) (clock_after l1 clock0))).
Proof.
  induction l1 as [|e1 l1 IH]; intros k;
    cbn [app returned_states List.length nth_error clock_after].
  - reflexivity.
  - apply IH.
Qed.

Lemma map_fst_of_combine {A B : Type} (l1 : list A) :
  forall l2 : list B,
    List.length l1 = List.length l2 -> map fst (combine l1 l2) = l1.
Proof.
  induction l1 as [|a l1 IH]; intros [|b l2] Hlen; cbn in *;
    try reflexivity; try discriminate.
  rewrite IH by lia. reflexivity.
Qed.

Lemma map_snd_of_combine {A B : Type} (l1 : list A) :
  forall l2 : list B,
    List.length l1 = List.length l2 -> map snd (combine l1 l2) = l2.
Proof.
  induction l1 as [|a l1 IH]; intros [|b l2] Hlen; cbn in *;
    try reflexivity; try discriminate.
  rewrite IH by lia. reflexivity.
Qed.

Lemma nth_error_of_combine {A B : Type} (l1 : list A) :
  forall (l2 : list B) (i : nat) (a : A) (b : B),
    nth_error l1 i = Some a -> nth_error l2 i = Some b ->
    nth_error (combine l1 l2) i = Some (a, b).
Proof.
  induction l1 as [|x l1 IH]; intros [|y l2] [|i] a b H1 H2; cbn in *;
    try discriminate.
  - congruence.
  - apply IH; assumption.
Qed.

(** What [runBenchmarks] logs, and the calls the Reporter gets. *)
Lemma runBenchmarks_log (b : Benchmarker) (clock0 : nat) :
  let states := returned_states (evaluators b) clock0 in
  let turns := combine (map name (evaluators b)) states in
  snd (runBenchmarks b clock0) =
    flat_map (fun ns => turn_events (fst ns) (snd ns)) turns /\
  reporter_calls (snd (runBenchmarks b clock0)) =
    map (fun ns => report (snd ns) (fst ns)) turns /\
  List.length states = List.length (evaluators b).
Proof.
  intros states turns. unfold runBenchmarks. rewrite fold_run_one.
  cbn [snd app]. fold states. fold turns.
  split; [reflexivity|]. split; [apply reporter_calls_turns|].
  apply returned_states_length.
Qed.

(** C3: after any sequence of registrations on a new harness, [runBenchmarks]
    calls the Reporter once per registration and in registration order, each
    call right after the return of that benchmark's function and built from
    the [State] the function left, with the registered name and the
    registered iteration count, the harness default where the registration
    gave none. *)
Theorem runBenchmarks_reports_in_order
  (d : option Z) (rs : list Registration) (clock0 : nat) :
  Forall (fun r => keeps_target (reg_function r)) rs ->
  let b0 := new_Benchmarker d in
  let b := register_all b0 rs in
  let log := snd (runBenchmarks b clock0) in
  let calls := reporter_calls log in
  let states := returned_states (evaluators b) clock0 in
  List.length calls = List.length rs /\
  map rep_name calls = map reg_name rs /\
  map rep_iterations calls = map (registered_count b0) rs /\
  List.length states = List.length rs /\
  log = flat_map (fun ns => turn_events (fst ns) (snd ns))
          (combine (map reg_name rs) states).
Proof.
  intros Hkeep b0 b log calls states.
  destruct (register_all_spec rs b0) as [_ Hev]. fold b in Hev.
  cbn [b0 new_Benchmarker evaluators app] in Hev.
  destruct (runBenchmarks_log b clock0) as [Hlog [Hcalls Hlen]].
  fold log in Hlog, Hcalls. fold calls in Hcalls. fold states in Hlog, Hcalls, Hlen.
  assert (Hnames : map name (evaluators b) = map reg_name rs).
  { rewrite Hev, map_map. reflexivity. }
  assert (Hcounts : map iterations (evaluators b) = map (registered_count b0) rs).
  { rewrite Hev, map_map. reflexivity. }
  assert (Hn : List.length states = List.length rs).
  { rewrite Hlen, Hev, length_map. reflexivity. }
  assert (Hnl : List.length (map reg_name rs) = List.length states).
  { rewrite length_map. lia. }
  rewrite Hnames in Hlog, Hcalls.
  assert (Hits : map iterations_ states = map iterations (evaluators b)).
  { apply returned_states_iterations. rewrite Hev.
    apply Forall_map. cbn [function]. exact Hkeep. }
  repeat split.
  - rewrite Hcalls, length_map, length_combine, length_map. lia.
  - rewrite Hcalls, map_map. cbn [report rep_name].
    change (fun x : string * State => fst x) with (@fst string State).
    apply map_fst_of_combine. exact Hnl.
  - rewrite Hcalls, map_map. cbn [report rep_iterations].
    rewrite <- Hcounts, <- Hits.
    rewrite <- (map_snd_of_combine (map reg_name rs) states Hnl) at 2.
    rewrite map_map. reflexivity.
  - exact Hn.
  - exact Hlog.
Qed.

Lemma reporter_calls_app (l1 l2 : list RunEvent) :
  reporter_calls (l1 ++ l2) = reporter_calls l1 ++ reporter_calls l2.
Proof.
  induction l1 as [|[nm s|r] l1 IH]; cbn [app reporter_calls].
  - reflexivity.
  - exact IH.
  - rewrite IH. reflexivity.
Qed.

(** [runBenchmarks] logs two events and calls the Reporter once for each
    entry of the registry. *)
Lemma runBenchmarks_log_length (b : Benchmarker) (clock0 : nat) :
  List.length (snd (runBenchmarks b clock0)) = (2 * List.length (evaluators b))%nat /\
  List.length (reporter_calls (snd (runBenchmarks b clock0))) =
    List.length (evaluators b).
Proof.
  destruct (runBenchmarks_log b clock0) as [Hlog [Hcalls Hlen]].
  cbn zeta in Hlog, Hcalls, Hlen.
  assert (Hc : List.length (combine (map name (evaluators b))
                              (returned_states (evaluators b) clock0)) =
               List.length (evaluators b)).
  { rewrite length_combine, length_map, Hlen. apply Nat.min_id. }
  split.
  - rewrite Hlog. rewrite <- Hc.
    generalize (combine (map name (evaluators b))
                  (returned_states (evaluators b) clock0)).
    intros nss. induction nss as [|ns nss IH]; cbn [flat_map turn_events app List.length].
    + reflexivity.
    + rewrite IH. lia.
  - rewrite Hcalls, length_map. exact Hc.
Qed.

(** The log of a run over a registry, cut at one of its entries: the log of
    the entries before it, then the return of that entry's function, called
    on a fresh [State] made for the entry's count at the clock reading the
    entries before it ended at, then the Reporter call built from the
    [State] it returned, then the log of the entries after it. *)
Lemma run_log_split (l1 l2 : list Evaluator) (e : Evaluator) (clock0 : nat) :
  let first := fold_left run_one l1 (clock0, []) in
  let out := function e (new_State (iterations e)) (fst first) in
  snd (fold_left run_one (l1 ++ e :: l2) (clock0, [])) =
  snd first ++ turn_events (name e) (fst out)
            ++ snd (fold_left run_one l2 (snd out, [])).
Proof.
  intros first out. subst out first.
  rewrite fold_left_app. cbn [fold_left].
  destruct (fold_left run_one l1 (clock0, [])) as [k log1]. cbn [fst snd].
  destruct (function e (new_State (iterations e)) k) as [s' k'] eqn:Hf.
  assert (Hone : run_one (k, log1) e = (k', log1 ++ turn_events (name e) s')).
  { unfold run_one. cbn [fst snd]. rewrite Hf. reflexivity. }
  rewrite Hone, !fold_run_one. cbn [fst snd app].
  rewrite <- app_assoc. reflexivity.
Qed.

(** C10: on a harness made without a default count the default is 1000.
    A benchmark registered without a count, anywhere among other
    registrations, is stored with 1000.  When [runBenchmarks] runs, its log
    starts with the whole log of the benchmarks registered before; then
    comes the return of this benchmark's function from the call on a fresh
    [State] made for 1000 iterations, at the clock reading the earlier
    benchmarks ended at; then the Reporter call built from the [State] the
    function left, with the name and the count 1000.  When the function is
    the range-for loop with a body that runs through, that call makes the
    loop end after exactly 1000 passes and 1000 updates, with 2000 clock
    readings. *)
Theorem default_count_1000_stored_run_reported
  (before after : list Registration) (nm : string) (f : EvaluatorFunction)
  (clock0 : nat) :
  keeps_target f ->
  let b_before := register_all (new_Benchmarker None) before in
  let b := register_all (new_Benchmarker None)
             (before ++ mk_Registration nm f None :: after) in
  let i := List.length before in
  let k := fst (runBenchmarks b_before clock0) in
  let out := f (new_State 1000) k in
  let log := snd (runBenchmarks b clock0) in
  default_iterations_ b = 1000 /\
  nth_error (evaluators b) i = Some (mk_Evaluator nm f 1000) /\
  firstn (2 * i) log = snd (runBenchmarks b_before clock0) /\
  nth_error log (2 * i) = Some (FunctionReturned nm (fst out)) /\
  nth_error log (2 * i + 1) = Some (ReporterCalled (report (fst out) nm)) /\
  nth_error (reporter_calls log) i = Some (report (fst out) nm) /\
  rep_name (report (fst out) nm) = nm /\
  rep_iterations (report (fst out) nm) = 1000 /\
  (forall body, runs_through body -> f = range_for body ->
     let final : Config := range_for_config body (new_State 1000) k in
     point final = LoopLeft /\
     passes final = 1000%nat /\
     updates_done (trace final) = 1000%nat /\
     iteration_ (st final) = 1000 /\
     fst out = st final /\
     snd out = (k + 2000)%nat).
Proof.
  intros Hkeep b_before b i k out log.
  pose proof SIZE_MAX_large as Hmax.
  destruct (register_all_spec (before ++ mk_Registration nm f None :: after)
              (new_Benchmarker None)) as [Hd Hev].
  fold b in Hd, Hev.
  cbn [new_Benchmarker default_iterations_ evaluators app] in Hd, Hev.
  rewrite map_app in Hev.
  cbn [map reg_name reg_function registered_count reg_iterations
       default_iterations_] in Hev.
  destruct (register_all_spec before (new_Benchmarker None)) as [_ Hev1].
  fold b_before in Hev1. cbn [new_Benchmarker evaluators app] in Hev1.
  set (l1 := map (fun r => mk_Evaluator (reg_name r) (reg_function r)
                   (registered_count (new_Benchmarker None) r)) before)
    in Hev, Hev1.
  set (l2 := map (fun r => mk_Evaluator (reg_name r) (reg_function r)
                   (registered_count (new_Benchmarker None) r)) after) in Hev.
  assert (Hi : i = List.length l1)
    by (subst i l1; rewrite length_map; reflexivity).
  assert (Hfirst : runBenchmarks b_before clock0 = fold_left run_one l1 (clock0, []))
    by (unfold runBenchmarks; rewrite Hev1; reflexivity).
  destruct (runBenchmarks_log_length b_before clock0) as [Hlen1 Hcalls1].
  rewrite Hev1, <- Hi in Hlen1, Hcalls1.
  assert (Hlog : log = snd (runBenchmarks b_before clock0)
                       ++ turn_events nm (fst out)
                       ++ snd (fold_left run_one l2 (snd out, []))).
  { unfold log, runBenchmarks at 1. rewrite Hev.
    change (default_iterations_ (@new_Benchmarker Accumulator None)) with 1000.
    rewrite (run_log_split l1 l2 (mk_Evaluator nm f 1000) clock0).
    cbn zeta. cbn [name function iterations]. rewrite <- Hfirst. reflexivity. }
  set (log1 := snd (runBenchmarks b_before clock0)) in *.
  set (rest := snd (fold_left run_one l2 (snd out, []))) in *.
  split; [exact Hd|].
  split; [rewrite Hev, Hi, nth_error_app2, Nat.sub_diag by lia; reflexivity|].
  split; [|split; [|split; [|split; [|split; [|split]]]]].
  - rewrite Hlog, <- Hlen1, firstn_app, Nat.sub_diag, firstn_all.
    cbn [firstn]. apply app_nil_r.
  - rewrite Hlog, nth_error_app2 by lia.
    replace (2 * i - List.length log1)%nat with 0%nat by lia. reflexivity.
  - rewrite Hlog, nth_error_app2 by lia.
    replace (2 * i + 1 - List.length log1)%nat with 1%nat by lia. reflexivity.
  - rewrite Hlog, !reporter_calls_app, nth_error_app2 by lia.
    replace (i - List.length (reporter_calls log1))%nat with 0%nat by lia.
    reflexivity.
  - reflexivity.
  - cbn [report rep_iterations]. unfold out. rewrite Hkeep. reflexivity.
  - intros body Hbody Hf final.
    destruct (range_for_complete body 1000 k Hbody)
      as [Hl [Hps [Hck [Htr [_ Hit]]]]]; [lia|].
    fold final in Hl, Hps, Hck, Htr, Hit.
    destruct (passes_trace_counts k (Z.to_nat 1000)) as [_ [_ [Hu _]]].
    assert (Hout : out = (st final, clock final))
      by (unfold out; rewrite Hf; reflexivity).
    split; [exact Hl|]. split; [rewrite Hps; reflexivity|].
    split; [rewrite Htr, Hu; reflexivity|]. split; [exact Hit|].
    rewrite Hout. cbn [fst snd]. split; [reflexivity|].
    rewrite Hck. reflexivity.
Qed.

(** The range-for loop is such a function: it reaches the [State] through
    [update] only. *)
Lemma range_for_keeps_target (body : Body) : keeps_target (range_for body).
Proof.
  intros s k. unfold range_for, range_for_config. cbn [fst].
  destruct (trace_inv_run body s k (loop_fuel s)) as [r [Hst _]].
  rewrite Hst. apply fold_update_iterations_.
Qed.

(** The loop over a [State] made for one iteration makes its one pass under
    any body: whether the body leaves the loop or falls through to [++it],
    which finds [done()]. *)
Lemma one_target_config (body : Body) (clock0 : nat) :
  range_for_config body (new_State 1) clock0 =
  {| point := LoopLeft;
     st := update (new_State 1) (elapsed_at clock0);
     clock := S (S clock0);
     passes := 1;
     trace := pass_events clock0 |}.
Proof.
  pose proof SIZE_MAX_large as Hmax.
  unfold range_for_config, loop_fuel. cbn [iterations_ new_State].
  change (Z.to_nat (5 * Z.max 1 1 + 1)) with (5 + 1)%nat.
  rewrite run_add, run_one_pass by reflexivity. cbn zeta.
  cbn [enter st clock passes trace app].
  destruct (leaves_loop (body 0%nat)); [reflexivity|].
  unfold done. rewrite update_iterations_, update_iteration_ by (cbn; lia).
  cbn [new_State iterations_ iteration_]. reflexivity.
Qed.

End EmbFacts.

(** ** Plain scalar against wrapper *)

Section WrapperAgainstPlain.

Context {platform : Platform}.
Context {S : Type} {scalar : Scalar S}.
Context {timer : Timer S S}.

Local Abbreviation plain := (plain_accumulator (S := S)).
Local Abbreviation wrapper := (wrapper_accumulator (S := S)).

Lemma update_count (s : @State (duration S)) (d : S) :
  State_count (update (ops := wrapper) s d) =
  update (ops := plain) (State_count s) d.
Proof. reflexivity. Qed.

Lemma done_count (s : @State (duration S)) : done (State_count s) = done s.
Proof. reflexivity. Qed.

Lemma step_count (body : Body) (c : @Config S S (duration S)) :
  Config_count (step (ops := wrapper) body c) =
  step (ops := plain) body (Config_count c).
Proof.
  destruct c as [p s k ps tr]. unfold step, Config_count.
  cbn [point st clock passes trace].
  destruct p as [it|it|it g|it g e|it| |]; try reflexivity.
  - destruct (Iterator_ne it end_); reflexivity.
  - destruct (Iterator_deref it k) as [[g k']|]; reflexivity.
  - unfold Iterator_incr. destruct (state it); [|reflexivity].
    rewrite done_count. reflexivity.
Qed.

Lemma run_count (body : Body) (fuel : nat) :
  forall c : @Config S S (duration S),
    Config_count (run (ops := wrapper) body fuel c) =
    run (ops := plain) body fuel (Config_count c).
Proof.
  induction fuel as [|fuel IH]; intros c; cbn [run].
  - reflexivity.
  - rewrite IH, step_count. reflexivity.
Qed.

Lemma range_for_count (body : Body) (s : @State (duration S)) (clock0 : nat) :
  State_count (fst (range_for (ops := wrapper) body s clock0)) =
  fst (range_for (ops := plain) body (State_count s) clock0).
Proof.
  unfold range_for, range_for_config. cbn [fst].
  change (loop_fuel (State_count s)) with (loop_fuel s).
  change (enter (State_count s) clock0) with (Config_count (enter s clock0)).
  rewrite <- run_count. reflexivity.
Qed.

(** C8: on the same clock, under the same body and for the same target, the
    benchmark run with the scalar itself as Accumulator and the benchmark
    run with the wrapper around that scalar report the same name and count,
    and a mean and a standard deviation of the same magnitude. *)
Theorem wrapper_reports_same_magnitudes
  (body : Body) (n : Z) (clock0 : nat) (nm : string) :
  let rp := report (ops := plain)
              (fst (range_for (ops := plain) body (new_State n) clock0)) nm in
  let rw := report (ops := wrapper)
              (fst (range_for (ops := wrapper) body (new_State n) clock0)) nm in
  rep_name rw = rep_name rp /\
  rep_iterations rw = rep_iterations rp /\
  count (rep_mean rw) = rep_mean rp /\
  count (rep_sd rw) = rep_sd rp.
Proof.
  intros rp rw. subst rp rw.
  change (new_State (Accumulator := S) n)
    with (State_count (new_State (ops := wrapper) n)).
  rewrite <- range_for_count.
  repeat split; reflexivity.
Qed.

End WrapperAgainstPlain.

(** ** Exact arithmetic: what Welford's algorithm computes *)

Section ExactStatistics.

Context {platform : Platform}.

Local Abbreviation State := (@State exact).
Local Abbreviation exact_ops := (plain_accumulator (S := exact)).

Local Open Scope R_scope.

Lemma Rsum_app (l1 l2 : list R) : Rsum (l1 ++ l2) = Rsum l1 + Rsum l2.
Proof.
  induction l1 as [|v l1 IH]; cbn [app Rsum].
  - ring.
  - rewrite IH. ring.
Qed.

Lemma squared_deviations_expand (mu : R) (vs : list R) :
  squared_deviations mu vs =
  Rsum_squares vs - 2 * mu * Rsum vs + INR (List.length vs) * (mu * mu).
Proof.
  unfold squared_deviations, Rsum_squares.
  induction vs as [|v vs IH].
  - cbn. ring.
  - cbn [map Rsum List.length]. rewrite IH, S_INR. ring.
Qed.

Lemma squared_deviations_nonneg (mu : R) (vs : list R) :
  0 <= squared_deviations mu vs.
Proof.
  unfold squared_deviations.
  induction vs as [|v vs IH]; cbn [map Rsum].
  - lra.
  - pose proof (Rle_0_sqr (v - mu)) as Hsq. unfold Rsqr in Hsq. lra.
Qed.

Lemma update_exact (s : State) (v m M : R) :
  (0 <= iteration_ s < SIZE_MAX)%Z ->
  mean_ s = Some m ->
  squared_differences_ s = Some M ->
  let n := IZR (iteration_ s + 1) in
  update (ops := exact_ops) s (Some v) =
  {| iterations_ := iterations_ s;
     iteration_ := (iteration_ s + 1)%Z;
     mean_ := Some (m + (v - m) / n);
     squared_differences_ := Some (M + (v - m) * (v - (m + (v - m) / n))) |}.
Proof.
  intros Hi Hm HM n. unfold update.
  rewrite size_wrap_small by lia. rewrite Hm, HM.
  cbn [acc_of_duration acc_sub acc_add acc_div acc_multiply plain_accumulator
       s_sub s_add s_mul s_div_count exact_scalar exact_lift2 exact_div_count
       detail.multiply].
  destruct (Z.eqb_spec (iteration_ s + 1) 0) as [H0|H0]; [lia|].
  reflexivity.
Qed.

Lemma welford_inv_step (k : nat) (S Q m M v : R) :
  welford_inv k S Q m M ->
  let n := IZR (Z.of_nat k + 1) in
  welford_inv (Datatypes.S k) (S + v) (Q + v * v)
    (m + (v - m) / n) (M + (v - m) * (v - (m + (v - m) / n))).
Proof.
  intros Hinv n. right. split; [lia|].
  assert (Hn : n = INR (Datatypes.S k)).
  { subst n. rewrite S_INR, plus_IZR, <- INR_IZR_INZ. reflexivity. }
  rewrite Hn.
  assert (Hpos : 0 < INR (Datatypes.S k)) by (apply lt_0_INR; lia).
  destruct Hinv as [[Hk [HS [HQ [Hm HM]]]]|[Hk [Hm HM]]].
  - subst k S Q m M. cbn [INR]. split; field.
  - assert (Hkpos : 0 < INR k) by (apply lt_0_INR; lia).
    rewrite S_INR in *. subst m M. split; field; lra.
Qed.

Lemma welford_fold (vs : list R) :
  forall (s : State) (k : nat) (S Q m M : R),
    iteration_ s = Z.of_nat k ->
    (Z.of_nat (k + List.length vs) <= SIZE_MAX)%Z ->
    mean_ s = Some m ->
    squared_differences_ s = Some M ->
    welford_inv k S Q m M ->
    exists m' M' : R,
      fold_left (update (ops := exact_ops)) (map Some vs) s =
      {| iterations_ := iterations_ s;
         iteration_ := Z.of_nat (k + List.length vs);
         mean_ := Some m';
         squared_differences_ := Some M' |} /\
      welford_inv (k + List.length vs) (S + Rsum vs) (Q + Rsum_squares vs) m' M'.
Proof.
  induction vs as [|v vs IH]; intros s k S Q m M Hk Hmax Hm HM Hinv;
    cbn [map fold_left List.length Rsum] in *.
  - exists m, M. rewrite Nat.add_0_r. unfold Rsum_squares. cbn [map Rsum].
    rewrite !Rplus_0_r. split; [|exact Hinv].
    destruct s; cbn in *. subst. reflexivity.
  - rewrite (update_exact s v m M) by (try assumption; lia).
    cbn zeta.
    match goal with
    | |- context [fold_left _ _ ?s1] =>
        assert (H1 : iteration_ s1 = Z.of_nat (Datatypes.S k))
          by (cbn [iteration_]; lia);
        assert (H2 : (Z.of_nat (Datatypes.S k + List.length vs) <= SIZE_MAX)%Z)
          by lia;
        pose proof (welford_inv_step k S Q m M v Hinv) as H3; cbn zeta in H3;
        rewrite <- Hk in H3;
        destruct (IH s1 (Datatypes.S k) (S + v) (Q + v * v) _ _
                    H1 H2 eq_refl eq_refl H3) as [m' [M' [Hf Hi]]]
    end.
    exists m', M'. rewrite Hf. cbn [iterations_].
    replace (k + Datatypes.S (List.length vs))%nat
      with (Datatypes.S k + List.length vs)%nat by lia.
    split; [reflexivity|].
    unfold Rsum_squares in *. cbn [map Rsum].
    replace (S + (v + Rsum vs)) with (S + v + Rsum vs) by ring.
    replace (Q + (v * v + Rsum (map (fun v0 => v0 * v0) vs)))
      with (Q + v * v + Rsum (map (fun v0 => v0 * v0) vs)) by ring.
    exact Hi.
Qed.

(** Fed [n >= 1] samples, a fresh [State] holds their arithmetic mean and the
    sum of their squared deviations from it. *)
Lemma welford_result (vs : list R) (n : Z) :
  (1 <= List.length vs)%nat ->
  (Z.of_nat (List.length vs) <= SIZE_MAX)%Z ->
  fold_left (update (ops := exact_ops)) (map Some vs) (new_State n) =
  {| iterations_ := n;
     iteration_ := Z.of_nat (List.length vs);
     mean_ := Some (arithmetic_mean vs);
     squared_differences_ := Some (squared_deviations (arithmetic_mean vs) vs) |}.
Proof.
  intros Hlen Hmax.
  destruct (welford_fold vs (new_State n) 0 0 0 0 0) as [m [M [Hf Hinv]]];
    try reflexivity.
  - cbn [Nat.add]. exact Hmax.
  - left. repeat split; reflexivity.
  - rewrite Hf. cbn [Nat.add new_State iterations_] in *.
    destruct Hinv as [[Hk _]|[_ [Hm HM]]]; [lia|].
    rewrite !Rplus_0_l in Hm, HM.
    assert (Hpos : 0 < INR (List.length vs)) by (apply lt_0_INR; lia).
    assert (Hmean : m = arithmetic_mean vs) by exact Hm.
    assert (HM2 : M = squared_deviations (arithmetic_mean vs) vs).
    { rewrite squared_deviations_expand, HM. unfold arithmetic_mean.
      field. lra. }
    rewrite Hmean, HM2. reflexivity.
Qed.

(** What [report] hands over for a [State] holding the statistics of at
    least two samples, when the target is their number. *)
Lemma report_exact (vs : list R) (nm : string) :
  (2 <= List.length vs)%nat ->
  (Z.of_nat (List.length vs) <= SIZE_MAX)%Z ->
  report (ops := exact_ops)
    {| iterations_ := Z.of_nat (List.length vs);
       iteration_ := Z.of_nat (List.length vs);
       mean_ := Some (arithmetic_mean vs);
       squared_differences_ := Some (squared_deviations (arithmetic_mean vs) vs) |}
    nm =
  {| rep_name := nm;
     rep_iterations := Z.of_nat (List.length vs);
     rep_mean := Some (arithmetic_mean vs);
     rep_sd := Some (sample_sd vs) |}.
Proof.
  intros Hlen Hmax. unfold report.
  cbn [iterations_ mean_ squared_differences_].
  rewrite size_wrap_small by lia.
  cbn [acc_div acc_sqrt plain_accumulator s_div_count s_sqrt exact_scalar
       detail.sqrt exact_div_count exact_sqrt].
  destruct (Z.eqb_spec (Z.of_nat (List.length vs) - 1) 0) as [H0|H0]; [lia|].
  assert (Hd : IZR (Z.of_nat (List.length vs) - 1) = INR (List.length vs) - 1).
  { rewrite minus_IZR, <- INR_IZR_INZ. reflexivity. }
  assert (Hpos : 0 < INR (List.length vs) - 1).
  { assert (H2 : INR 2 <= INR (List.length vs)) by (apply le_INR; lia).
    cbn [INR] in H2. lra. }
  rewrite Hd. unfold exact_sqrt.
  pose proof (squared_deviations_nonneg (arithmetic_mean vs) vs) as Hnn.
  destruct (Rlt_dec (squared_deviations (arithmetic_mean vs) vs /
                     (INR (List.length vs) - 1)) 0) as [Hneg|_].
  - exfalso.
    assert (Hq : 0 <= squared_deviations (arithmetic_mean vs) vs /
                      (INR (List.length vs) - 1)).
    { apply Rmult_le_pos; [exact Hnn|].
      apply Rlt_le, Rinv_0_lt_compat, Hpos. }
    lra.
  - reflexivity.
Qed.

(** C1: for every sequence of [n >= 2] durations fed, in order, to [update]
    on a [State] made for [n] iterations, in exact arithmetic: the [State]
    has counted [n], its mean is the arithmetic mean of the durations, and
    [report] hands the Reporter that mean and the Bessel-corrected sample
    standard deviation, the root of the sum of the squared deviations from
    the mean over [n - 1]. *)
Theorem welford_mean_and_sample_sd (vs : list R) (nm : string) :
  (2 <= List.length vs)%nat ->
  (Z.of_nat (List.length vs) <= SIZE_MAX)%Z ->
  let n := Z.of_nat (List.length vs) in
  let s := fold_left (update (ops := exact_ops)) (map Some vs) (new_State n) in
  iteration_ s = n /\
  mean_ s = Some (arithmetic_mean vs) /\
  rep_mean (report s nm) = Some (arithmetic_mean vs) /\
  rep_sd (report s nm) = Some (sample_sd vs).
Proof.
  intros Hlen Hmax n s. subst s n.
  rewrite welford_result by (try assumption; lia).
  rewrite report_exact by assumption.
  repeat split; reflexivity.
Qed.

Lemma elapsed_exact (readings : nat -> R) (clock0 m : nat) :
  elapsed (timer := exact_timer readings) clock0 m =
  map Some (measured readings clock0 m).
Proof.
  unfold elapsed, measured. rewrite map_map. reflexivity.
Qed.

Lemma measured_length (readings : nat -> R) (clock0 m : nat) :
  List.length (measured readings clock0 m) = m.
Proof. unfold measured. rewrite length_map, length_seq. reflexivity. Qed.

(** The same, end to end: a benchmark whose loop runs through, registered
    for [n >= 2] iterations and timed by a clock with known readings,
    reports the arithmetic mean and the sample standard deviation of the
    [n] durations the guards measured. *)
Theorem benchmark_reports_mean_and_sample_sd
  (readings : nat -> R) (body : Body) (n : Z) (clock0 : nat) (nm : string) :
  runs_through body ->
  (2 <= n <= SIZE_MAX)%Z ->
  let durations := measured readings clock0 (Z.to_nat n) in
  report (ops := exact_ops)
    (fst (range_for (timer := exact_timer readings) (ops := exact_ops) body
            (new_State n) clock0)) nm =
  {| rep_name := nm;
     rep_iterations := n;
     rep_mean := Some (arithmetic_mean durations);
     rep_sd := Some (sample_sd durations) |}.
Proof.
  intros Hbody Hn durations.
  destruct (range_for_complete (timer := exact_timer readings) (ops := exact_ops)
              body n clock0 Hbody) as [_ [_ [_ [_ [Hst _]]]]]; [lia|].
  unfold range_for. cbn [fst]. rewrite Hst, elapsed_exact.
  fold durations.
  assert (Hn' : n = Z.of_nat (List.length durations))
    by (unfold durations; rewrite measured_length; lia).
  clearbody durations. subst n.
  rewrite welford_result by lia.
  apply report_exact; lia.
Qed.

(** The first sample: the mean becomes the sample and [M2] stays zero. *)
Lemma first_update_exact (n : Z) (v : R) :
  update (ops := exact_ops) (new_State n) (Some v) =
  {| iterations_ := n;
     iteration_ := 1;
     mean_ := Some v;
     squared_differences_ := Some 0 |}.
Proof.
  pose proof SIZE_MAX_large as Hmax.
  rewrite (update_exact (new_State n) v 0 0); try reflexivity.
  - cbn [new_State iterations_ iteration_ Z.add]. cbn zeta.
    f_equal; f_equal; field.
  - cbn. lia.
Qed.

(** C4, as the code has it: for a [State] made for zero iterations, the
    loop, under any body, is left and never uses a null iterator; [report]
    passes the count 0 and divides [M2] by [SIZE_MAX], which is what the
    [size_t] subtraction [0 - 1] gives, so nothing is divided by zero; with
    [M2] at zero the standard deviation handed over is the finite value 0,
    an ordinary number and not a separate signal; and a [State] made for
    zero iterations that no [update] touched holds and reports mean 0 and
    standard deviation 0. *)
Theorem zero_target_report
  (readings : nat -> R) (body : Body) (clock0 : nat) (nm : string) :
  let c := range_for_config (timer := exact_timer readings) (ops := exact_ops) body
             (new_State 0) clock0 in
  point c = LoopLeft /\
  rep_iterations (report (st c) nm) = 0%Z /\
  size_wrap (0 - 1) = SIZE_MAX /\
  SIZE_MAX <> 0%Z /\
  rep_sd (report (st c) nm) =
    exact_sqrt (exact_div_count (squared_differences_ (st c)) SIZE_MAX) /\
  squared_differences_ (st c) = Some 0 /\
  rep_sd (report (st c) nm) = Some 0 /\
  report (ops := exact_ops) (new_State 0) nm =
    {| rep_name := nm; rep_iterations := 0; rep_mean := Some 0; rep_sd := Some 0 |}.
Proof.
  intros c. subst c. rewrite zero_target_config. cbn [point st].
  pose proof SIZE_MAX_large as Hmax.
  assert (Hel : elapsed_at (timer := exact_timer readings) clock0 =
                Some (readings (Datatypes.S clock0) - readings clock0))
    by reflexivity.
  rewrite Hel, first_update_exact.
  assert (Hz : exact_sqrt (exact_div_count (Some 0) SIZE_MAX) = Some 0).
  { unfold exact_div_count, exact_sqrt.
    destruct (Z.eqb_spec SIZE_MAX 0) as [H0|H0]; [lia|].
    replace (0 / IZR SIZE_MAX) with 0 by (unfold Rdiv; ring).
    destruct (Rlt_dec 0 0) as [Hlt|_]; [lra|].
    rewrite sqrt_0. reflexivity. }
  unfold report.
  cbn [iterations_ mean_ squared_differences_ rep_iterations rep_sd new_State].
  rewrite size_wrap_minus_one.
  cbn [acc_div acc_sqrt acc_zero plain_accumulator s_div_count s_sqrt s_zero
       exact_scalar detail.sqrt].
  rewrite Hz.
  repeat split; try reflexivity. lia.
Qed.

(** C5, as the code has it: for a [State] made for one iteration, the loop
    makes its one pass under any body; the mean held and reported is the one
    duration measured and [M2] is zero; [report] has no case of its own for
    this count: it divides [M2] by [1 - 1 = 0] as for any other count, and
    the standard deviation handed to the Reporter is the result of that
    division by zero, which has no finite value (NaN in [double]). *)
Theorem single_iteration_report
  (readings : nat -> R) (body : Body) (clock0 : nat) (nm : string) :
  let c := range_for_config (timer := exact_timer readings) (ops := exact_ops) body
             (new_State 1) clock0 in
  let v := readings (Datatypes.S clock0) - readings clock0 in
  point c = LoopLeft /\
  passes c = 1%nat /\
  fed (trace c) = [Some v] /\
  iteration_ (st c) = 1%Z /\
  mean_ (st c) = Some v /\
  squared_differences_ (st c) = Some 0 /\
  rep_mean (report (st c) nm) = Some v /\
  rep_sd (report (st c) nm) =
    exact_sqrt (exact_div_count (squared_differences_ (st c)) (1 - 1)) /\
  rep_sd (report (st c) nm) = None.
Proof.
  intros c v. subst c. rewrite one_target_config.
  cbn [point st passes trace].
  assert (Hel : elapsed_at (timer := exact_timer readings) clock0 = Some v)
    by reflexivity.
  unfold pass_events. rewrite Hel, first_update_exact.
  unfold report.
  cbn [iterations_ iteration_ mean_ squared_differences_ rep_mean rep_sd].
  assert (Hw : size_wrap (1 - 1) = 0%Z).
  { apply size_wrap_small. pose proof SIZE_MAX_large. lia. }
  rewrite Hw.
  repeat split; reflexivity.
Qed.

End ExactStatistics.

(** ** More about the loop and the runner *)

Section EmbMoreFacts.

Context {platform : Platform}.
Context {TimePoint Duration Accumulator : Type}.
Context {timer : Timer TimePoint Duration}.
Context {ops : AccumulatorOps Duration Accumulator}.

Local Abbreviation State := (@State Accumulator).
Local Abbreviation Config := (@Config TimePoint Duration Accumulator).
Local Abbreviation Evaluator := (@Evaluator Accumulator).
Local Abbreviation Benchmarker := (@Benchmarker Accumulator).
Local Abbreviation Registration := (@Registration Accumulator).

(** The loop over a fresh [State] made for any count [n] of the [size_t]
    range, under any body: no step uses a null iterator, the count of
    iterations never passes [Z.max 1 n], and the loop is left within
    [loop_fuel] steps, after at least one pass and at most [Z.max 1 n], with
    two clock readings taken per pass and the [State] updated once per pass
    with the duration between the two. *)
Theorem loop_is_left_under_every_body (body : Body) (n : Z) (clock0 k : nat) :
  0 <= n <= SIZE_MAX ->
  let c : Config := run body k (enter (new_State n) clock0) in
  let final : Config := range_for_config body (new_State n) clock0 in
  point c <> Undefined /\
  0 <= iteration_ (st c) <= Z.max 1 n /\
  point final = LoopLeft /\
  (1 <= passes final)%nat /\
  Z.of_nat (passes final) <= Z.max 1 n /\
  iteration_ (st final) = Z.of_nat (passes final) /\
  clock final = (clock0 + 2 * passes final)%nat /\
  st final = fold_left update (elapsed clock0 (passes final)) (new_State n).
Proof.
  intros Hn c final.
  destruct (trace_inv_run body (new_State n) clock0 k) as [r [_ [_ Hp]]].
  fold c in Hp.
  destruct (count_inv_run body n clock0 k Hn) as [_ [Hi _]]. fold c in Hi.
  assert (Hleft : point final = LoopLeft) by (apply range_for_leaves; exact Hn).
  destruct (trace_inv_run body (new_State n) clock0 (loop_fuel (new_State n)))
    as [rf [Hst [Hps Htr]]].
  destruct (count_inv_run body n clock0 (loop_fuel (new_State n)) Hn)
    as [_ [Hif Hpf]].
  fold (range_for_config body (new_State n) clock0) in Hst, Hps, Htr, Hif, Hpf.
  fold final in Hst, Hps, Htr, Hif, Hpf.
  rewrite Hleft in Hps, Htr, Hpf. cbn zeta in Hif.
  destruct Htr as [Hck _]. destruct Hpf as [Hpi Hex].
  assert (Hr : rf = passes final) by lia. subst rf.
  assert (H1 : (1 <= passes final)%nat).
  { destruct (Z.eq_dec n 0) as [H0|H0].
    - subst n. unfold final. rewrite zero_target_config. cbn [passes]. lia.
    - destruct Hex as [Hle|[Hle _]]; lia. }
  split.
  - intros Hu. rewrite Hu in Hp. exact Hp.
  - repeat split; try assumption; try lia.
Qed.

(** One more pass and the body leaves: from the comparison that lets the
    pass numbered [passes c] in, when the body leaves in the pass [m] later
    and not before, and [done()] does not end the loop first. *)
Lemma leave_at_pass (body : Body) (m : nat) :
  forall c : Config,
    point c = AtCompare begin ->
    (forall i, (i < m)%nat -> leaves_loop (body (passes c + i)%nat) = false) ->
    leaves_loop (body (passes c + m)%nat) = true ->
    0 <= iteration_ (st c) ->
    (m = 0%nat \/ iteration_ (st c) + Z.of_nat m < iterations_ (st c)) ->
    iteration_ (st c) + Z.of_nat m < SIZE_MAX ->
    point (run body (5 * S m) c) = LoopLeft /\
    passes (run body (5 * S m) c) = (passes c + S m)%nat.
Proof.
  induction m as [|m IH]; intros c Hp Hno Hlv H0 Hlt Hmax.
  - rewrite Nat.add_0_r in Hlv.
    change (5 * 1)%nat with 5%nat. rewrite run_one_pass by exact Hp.
    cbn zeta. rewrite Hlv. cbn [point passes]. split; [reflexivity|lia].
  - replace (5 * S (S m))%nat with (5 + 5 * S m)%nat by lia.
    rewrite run_add, run_one_pass by exact Hp. cbn zeta.
    assert (Hfirst : leaves_loop (body (passes c)) = false).
    { rewrite <- (Nat.add_0_r (passes c)). apply Hno. lia. }
    rewrite Hfirst.
    unfold done. rewrite update_iterations_, update_iteration_ by lia.
    destruct (Z.geb_spec (iteration_ (st c) + 1) (iterations_ (st c))) as [Hge|Hnge];
      [lia|].
    match goal with
    | |- context [run body _ ?c1] =>
        destruct (IH c1) as [Hpt Hps]
    end; cbn [point st passes];
      rewrite ?update_iterations_, ?update_iteration_ by lia; try lia.
    + reflexivity.
    + intros i Hi. replace (S (passes c) + i)%nat with (passes c + S i)%nat by lia.
      apply Hno. lia.
    + replace (S (passes c) + m)%nat with (passes c + S m)%nat by lia. exact Hlv.
    + split; [exact Hpt|]. rewrite Hps. cbn [passes]. lia.
Qed.

(** A body that first leaves the loop in the pass numbered [j], before the
    count would end it: the loop makes exactly [j + 1] passes and the
    [State] has counted [j + 1] samples, those of the passes made; the
    Reporter is still told the target [n] as the number of iterations. *)
Theorem leaving_early_keeps_the_target
  (body : Body) (n : Z) (j clock0 : nat) (nm : string) :
  first_leaves_at body j ->
  Z.of_nat j < Z.max 1 n ->
  0 <= n <= SIZE_MAX ->
  let final : Config := range_for_config body (new_State n) clock0 in
  point final = LoopLeft /\
  passes final = S j /\
  iteration_ (st final) = Z.of_nat (S j) /\
  clock final = (clock0 + 2 * S j)%nat /\
  st final = fold_left update (elapsed clock0 (S j)) (new_State n) /\
  rep_iterations (report (st final) nm) = n.
Proof.
  intros [Hno Hlv] Hj Hn final.
  pose proof SIZE_MAX_large as Hmax.
  assert (Hrun : point (run body (5 * S j) (enter (new_State n) clock0 : Config))
                 = LoopLeft /\
                 passes (run body (5 * S j) (enter (new_State n) clock0 : Config))
                 = (0 + S j)%nat).
  { apply leave_at_pass; cbn [enter point st passes new_State iteration_ iterations_];
      try lia; try reflexivity.
    - exact Hno.
    - exact Hlv. }
  destruct Hrun as [Hpt Hps].
  assert (Hfinal : final = run body (5 * S j) (enter (new_State n) clock0)).
  { unfold final, range_for_config, loop_fuel. cbn [new_State iterations_].
    replace (Z.to_nat (5 * Z.max 1 n + 1))
      with (5 * S j + (Z.to_nat (5 * Z.max 1 n + 1) - 5 * S j))%nat by lia.
    rewrite run_add. apply run_LoopLeft. exact Hpt. }
  destruct (trace_inv_run body (new_State n) clock0 (5 * S j)) as [r [Hst [Hpr Htr]]].
  rewrite <- Hfinal in Hpt, Hps, Hst, Hpr, Htr.
  rewrite Hpt in Hpr, Htr. destruct Htr as [Hck _].
  assert (Hr : r = S j) by lia. subst r.
  split; [exact Hpt|]. split; [lia|].
  split; [|split; [exact Hck|split; [exact Hst|]]].
  - rewrite Hst. rewrite fold_update_iteration_;
      rewrite ?elapsed_length; cbn [new_State iteration_]; lia.
  - cbn [report rep_iterations]. rewrite Hst, fold_update_iterations_. reflexivity.
Qed.

(** Registering more benchmarks on any harness keeps the default count and
    the entries already there, in their places, and adds one entry per
    registration; and running the longer registry is running the old one
    and then, from the clock reading it ended at, the added entries: what
    the Reporter heard of the benchmarks registered earlier is unchanged. *)
Theorem runBenchmarks_after_more_registrations
  (b : Benchmarker) (rs : list Registration) (clock0 : nat) :
  let b' := register_all b rs in
  let added :=
    {| default_iterations_ := default_iterations_ b;
       evaluators := skipn (List.length (evaluators b)) (evaluators b') |} in
  let first := runBenchmarks b clock0 in
  let rest := runBenchmarks added (fst first) in
  default_iterations_ b' = default_iterations_ b /\
  firstn (List.length (evaluators b)) (evaluators b') = evaluators b /\
  List.length (evaluators b') = (List.length (evaluators b) + List.length rs)%nat /\
  runBenchmarks b' clock0 = (fst rest, snd first ++ snd rest).
Proof.
  intros b' added first rest.
  destruct (register_all_spec rs b) as [Hd He]. fold b' in Hd, He.
  set (news := map (fun r => mk_Evaluator (reg_name r) (reg_function r)
                      (registered_count b r)) rs) in He.
  assert (Hskip : evaluators added = news).
  { unfold added. cbn [evaluators]. rewrite He.
    rewrite skipn_app, Nat.sub_diag, skipn_all. reflexivity. }
  split; [exact Hd|]. split; [|split].
  - rewrite He, firstn_app, Nat.sub_diag, firstn_all. cbn [firstn].
    apply app_nil_r.
  - rewrite He, length_app. unfold news. rewrite length_map. reflexivity.
  - unfold rest, first, runBenchmarks. rewrite Hskip, He, fold_left_app.
    rewrite (fold_run_one (evaluators b)). cbn [fst snd app].
    rewrite !fold_run_one. cbn [fst snd app]. reflexivity.
Qed.

Lemma loops_run (ls : list LoopBenchmark) :
  Forall (fun l => runs_through (loop_body l) /\ 1 <= loop_count l <= SIZE_MAX) ls ->
  forall clock0 : nat,
    let evs := map loop_evaluator ls in
    clock_after evs clock0 = (clock0 + readings_taken ls)%nat /\
    map (fun ns => report (snd ns) (fst ns))
        (combine (map name evs) (returned_states evs clock0)) =
    own_reports ls clock0.
Proof.
  induction 1 as [|l ls [Hbody Hn] _ IH]; intros clock0; cbn zeta.
  - cbn. split; [lia|reflexivity].
  - cbn [map clock_after returned_states combine readings_taken own_reports
         loop_evaluator function iterations name fst snd].
    destruct (range_for_complete (loop_body l) (loop_count l) clock0 Hbody Hn)
      as [_ [_ [Hck [_ [Hst _]]]]].
    unfold range_for. cbn [fst snd]. rewrite Hck, Hst.
    destruct (IH (clock0 + 2 * Z.to_nat (loop_count l))%nat) as [IHc IHr].
    cbn zeta in IHc, IHr. fold loop_evaluator in IHc, IHr.
    split.
    + rewrite IHc. lia.
    + f_equal. exact IHr.
Qed.

(** Any number of loop benchmarks, each running to its count of at least
    one: the clock is read twice per pass and no more, and what the Reporter
    hears of each benchmark is the statistics of the durations of that
    benchmark's own passes, accumulated from a fresh [State]: nothing of one
    benchmark's samples reaches another's report. *)
Theorem loop_benchmarks_report_their_own_passes
  (d : option Z) (ls : list LoopBenchmark) (clock0 : nat) :
  Forall (fun l => runs_through (loop_body l) /\ 1 <= loop_count l <= SIZE_MAX) ls ->
  let b := register_all (new_Benchmarker d) (map loop_registration ls) in
  fst (runBenchmarks b clock0) = (clock0 + readings_taken ls)%nat /\
  reporter_calls (snd (runBenchmarks b clock0)) = own_reports ls clock0.
Proof.
  intros Hls b.
  destruct (register_all_spec (map loop_registration ls) (new_Benchmarker d))
    as [_ He]. fold b in He.
  cbn [new_Benchmarker evaluators app] in He. rewrite map_map in He.
  assert (Hev : evaluators b = map loop_evaluator ls).
  { rewrite He. apply map_ext. intros l. reflexivity. }
  destruct (loops_run ls Hls clock0) as [Hck Hrep]. cbn zeta in Hck, Hrep.
  destruct (runBenchmarks_log b clock0) as [_ [Hcalls _]].
  split.
  - unfold runBenchmarks. rewrite fold_run_one. cbn [fst]. rewrite Hev. exact Hck.
  - rewrite Hcalls, Hev. exact Hrep.
Qed.

Lemma example_loops_run (default third : Z) :
  1 <= default <= SIZE_MAX -> 1 <= third <= SIZE_MAX ->
  Forall (fun l => runs_through (loop_body l) /\ 1 <= loop_count l <= SIZE_MAX)
         (example_loops default third).
Proof.
  intros Hd Ht. unfold example_loops.
  repeat constructor; cbn [loop_body loop_count]; try lia; intros k; reflexivity.
Qed.

(** The example program [stl_ctime], from any clock reading on and for any
    timer and accumulator: the Reporter is called three times, for
    [benchmark_empty], [benchmark_loop] and [benchmark_loop_double] in that
    order, with the counts 100, 100 and 110, each call carrying the
    statistics of that benchmark's own passes; the clock is read 620
    times, twice for each of the 310 passes. *)
Theorem stl_ctime_main_reports (clock0 : nat) :
  let out := stl_ctime_main clock0 in
  let calls := reporter_calls (snd out) in
  fst out = (clock0 + 620)%nat /\
  map rep_name calls =
    ["benchmark_empty"; "benchmark_loop"; "benchmark_loop_double"]%string /\
  map rep_iterations calls = [100; 100; 110] /\
  calls = own_reports (example_loops 100 110) clock0.
Proof.
  intros out calls.
  pose proof SIZE_MAX_large as Hmax.
  assert (Hls : Forall (fun l => runs_through (loop_body l) /\
                                 1 <= loop_count l <= SIZE_MAX)
                       (example_loops 100 110))
    by (apply example_loops_run; lia).
  destruct (loops_run _ Hls clock0) as [Hck Hrep]. cbn zeta in Hck, Hrep.
  assert (Hcalls : calls = own_reports (example_loops 100 110) clock0).
  { unfold calls, out, stl_ctime_main.
    match goal with
    | |- reporter_calls (snd (runBenchmarks ?b _)) = _ =>
        destruct (runBenchmarks_log b clock0) as [_ [Hc _]]; rewrite Hc
    end.
    exact Hrep. }
  split; [|split; [|split; [|exact Hcalls]]].
  - unfold out, stl_ctime_main, runBenchmarks. rewrite fold_run_one. cbn [fst].
    exact Hck.
  - rewrite Hcalls. reflexivity.
  - rewrite Hcalls. cbn [example_loops own_reports map loop_name loop_count].
    unfold report. cbn [rep_iterations]. rewrite !fold_update_iterations_.
    reflexivity.
Qed.

(** The example program [stl_chrono], where [size_t] can hold its default
    count of 100000: three calls of the Reporter in the same order with the
    counts 100000, 100000 and 12000, each with the statistics of that
    benchmark's own passes, and 424000 clock readings. *)
Theorem stl_chrono_main_reports (clock0 : nat) :
  100000 <= SIZE_MAX ->
  let out := stl_chrono_main clock0 in
  let calls := reporter_calls (snd out) in
  Z.of_nat (fst out) = Z.of_nat clock0 + 424000 /\
  map rep_name calls =
    ["benchmark_empty"; "benchmark_loop"; "benchmark_loop_double"]%string /\
  map rep_iterations calls = [100000; 100000; 12000] /\
  calls = own_reports (example_loops 100000 12000) clock0.
Proof.
  intros Hmax out calls.
  assert (Hls : Forall (fun l => runs_through (loop_body l) /\
                                 1 <= loop_count l <= SIZE_MAX)
                       (example_loops 100000 12000))
    by (apply example_loops_run; lia).
  destruct (loops_run _ Hls clock0) as [Hck Hrep]. cbn zeta in Hck, Hrep.
  assert (Hcalls : calls = own_reports (example_loops 100000 12000) clock0).
  { unfold calls, out, stl_chrono_main.
    match goal with
    | |- reporter_calls (snd (runBenchmarks ?b _)) = _ =>
        destruct (runBenchmarks_log b clock0) as [_ [Hc _]]; rewrite Hc
    end.
    exact Hrep. }
  split; [|split; [|split; [|exact Hcalls]]].
  - unfold out, stl_chrono_main, runBenchmarks. rewrite fold_run_one. cbn [fst].
    etransitivity; [apply f_equal; exact Hck|].
    unfold example_loops. cbn [readings_taken loop_count]. lia.
  - rewrite Hcalls. reflexivity.
  - rewrite Hcalls. cbn [example_loops own_reports map loop_name loop_count].
    unfold report. cbn [rep_iterations]. rewrite !fold_update_iterations_.
    reflexivity.
Qed.

(** In a configuration reached from a fresh [State] made for a count of
    the [size_t] range, [iteration_] is the number of guards released so
    far, and the [State] is the fresh one updated with the durations those
    guards measured. *)
Lemma iteration_counts_released (body : Body) (n : Z) (clock0 k : nat) :
  0 <= n <= SIZE_MAX ->
  let c : Config := run body k (enter (new_State n) clock0) in
  let r := guards_released (trace c) in
  iteration_ (st c) = Z.of_nat r /\
  Z.of_nat r <= Z.max 1 n /\
  st c = fold_left update (elapsed clock0 r) (new_State n).
Proof.
  intros Hn c r.
  destruct (trace_inv_run body (new_State n) clock0 k) as [r' [Hst [Hps Hp]]].
  destruct (count_inv_run body n clock0 k Hn) as [_ [Hi Hc]].
  fold c in Hst, Hps, Hp, Hi, Hc. cbn zeta in Hi, Hc.
  destruct (passes_trace_counts clock0 r') as [_ [Hr _]].
  assert (Hrr : r = r' /\ iteration_ (st c) = Z.of_nat r').
  { unfold r.
    destruct (point c) as [it|it|it g|it g e|it| |].
    - destruct Hp as [_ Ht]. rewrite Ht, Hr. lia.
    - destruct Hp as [_ [_ Ht]]. rewrite Ht, Hr. lia.
    - destruct Hp as [_ [_ [_ Ht]]].
      rewrite Ht, guards_released_app, Hr. cbn. lia.
    - destruct Hp as [_ [_ [_ Ht]]].
      rewrite Ht, guards_released_app, Hr. cbn. lia.
    - destruct Hp as [_ [_ Ht]]. rewrite Ht, Hr. lia.
    - destruct Hp as [_ Ht]. rewrite Ht, Hr. lia.
    - destruct Hp. }
  destruct Hrr as [Hrr Hit]. rewrite Hrr.
  split; [exact Hit|]. split; [lia|exact Hst].
Qed.

End EmbMoreFacts.

(** ** More about the statistics, in exact arithmetic *)

Section ExactMoreFacts.

Context {platform : Platform}.

Local Abbreviation State := (@State exact).
Local Abbreviation exact_ops := (plain_accumulator (S := exact)).

Local Open Scope R_scope.

Lemma arithmetic_mean_nil : arithmetic_mean [] = 0.
Proof. unfold arithmetic_mean, Rdiv. cbn [Rsum]. apply Rmult_0_l. Qed.

(** The statistics a fresh [State] holds after any number of samples, none
    included. *)
Lemma welford_result_any (vs : list R) (n : Z) :
  (Z.of_nat (List.length vs) <= SIZE_MAX)%Z ->
  fold_left (update (ops := exact_ops)) (map Some vs) (new_State n) =
  {| iterations_ := n;
     iteration_ := Z.of_nat (List.length vs);
     mean_ := Some (arithmetic_mean vs);
     squared_differences_ := Some (squared_deviations (arithmetic_mean vs) vs) |}.
Proof.
  intros Hmax. destruct vs as [|v vs].
  - rewrite arithmetic_mean_nil. reflexivity.
  - apply welford_result; [cbn [List.length]; lia|exact Hmax].
Qed.

(** What a benchmark whose loop runs through reports, by a clock with known
    readings. *)
Lemma run_report_exact
  (readings : nat -> R) (body : Body) (n : Z) (clock0 : nat) (nm : string) :
  runs_through body ->
  (2 <= n <= SIZE_MAX)%Z ->
  report (ops := exact_ops)
    (fst (range_for (timer := exact_timer readings) (ops := exact_ops) body
            (new_State n) clock0)) nm =
  {| rep_name := nm;
     rep_iterations := n;
     rep_mean := Some (arithmetic_mean (measured readings clock0 (Z.to_nat n)));
     rep_sd := Some (sample_sd (measured readings clock0 (Z.to_nat n))) |}.
Proof.
  intros Hbody Hn.
  destruct (range_for_complete (timer := exact_timer readings) (ops := exact_ops)
              body n clock0 Hbody) as [_ [_ [_ [_ [Hst _]]]]]; [lia|].
  unfold range_for. cbn [fst]. rewrite Hst, elapsed_exact.
  set (durations := measured readings clock0 (Z.to_nat n)).
  assert (Hn' : n = Z.of_nat (List.length durations))
    by (unfold durations; rewrite measured_length; lia).
  clearbody durations. subst n.
  rewrite welford_result by lia.
  apply report_exact; lia.
Qed.

(** At every step of the loop over a fresh [State], under any body and by a
    clock with finite readings: the [State] has counted the guards released
    so far, its mean is the arithmetic mean of the durations they measured
    and its [M2] the sum of their squared deviations from that mean, both
    finite, [M2] not negative.  So [update] never divides by a zero count
    while a loop runs. *)
Theorem running_statistics_at_every_step
  (readings : nat -> R) (body : Body) (n : Z) (clock0 k : nat) :
  (0 <= n <= SIZE_MAX)%Z ->
  let c := run (timer := exact_timer readings) (ops := exact_ops) body k
             (enter (new_State n) clock0) in
  let ds := measured readings clock0 (guards_released (trace c)) in
  st c =
    {| iterations_ := n;
       iteration_ := Z.of_nat (List.length ds);
       mean_ := Some (arithmetic_mean ds);
       squared_differences_ := Some (squared_deviations (arithmetic_mean ds) ds) |} /\
  List.length ds = guards_released (trace c) /\
  0 <= squared_deviations (arithmetic_mean ds) ds.
Proof.
  intros Hn c ds.
  destruct (iteration_counts_released (timer := exact_timer readings)
              (ops := exact_ops) body n clock0 k Hn) as [_ [Hle Hst]].
  fold c in Hle, Hst. cbn zeta in Hle, Hst.
  rewrite elapsed_exact in Hst. fold ds in Hst.
  assert (Hlen : List.length ds = guards_released (trace c))
    by apply measured_length.
  split; [|split; [exact Hlen|apply squared_deviations_nonneg]].
  pose proof SIZE_MAX_large as Hmax.
  rewrite Hst. apply welford_result_any. rewrite Hlen. lia.
Qed.

Lemma Rsum_bounds (lo hi : R) (vs : list R) :
  (forall v, In v vs -> lo <= v <= hi) ->
  INR (List.length vs) * lo <= Rsum vs <= INR (List.length vs) * hi.
Proof.
  induction vs as [|v vs IH]; intros Hin.
  - cbn. lra.
  - cbn [Rsum List.length]. rewrite S_INR.
    assert (Hv : lo <= v <= hi) by (apply Hin; left; reflexivity).
    assert (Hvs : INR (List.length vs) * lo <= Rsum vs <= INR (List.length vs) * hi)
      by (apply IH; intros w Hw; apply Hin; right; exact Hw).
    replace ((INR (List.length vs) + 1) * lo)
      with (INR (List.length vs) * lo + lo) by ring.
    replace ((INR (List.length vs) + 1) * hi)
      with (INR (List.length vs) * hi + hi) by ring.
    lra.
Qed.

Lemma arithmetic_mean_bounds (lo hi : R) (vs : list R) :
  (1 <= List.length vs)%nat ->
  (forall v, In v vs -> lo <= v <= hi) ->
  lo <= arithmetic_mean vs <= hi.
Proof.
  intros Hlen Hin.
  assert (Hpos : 0 < INR (List.length vs)) by (apply lt_0_INR; lia).
  destruct (Rsum_bounds lo hi vs Hin) as [Hl Hh].
  unfold arithmetic_mean. split.
  - apply (Rmult_le_reg_l (INR (List.length vs))); [exact Hpos|].
    replace (INR (List.length vs) * (Rsum vs / INR (List.length vs)))
      with (Rsum vs) by (field; lra).
    exact Hl.
  - apply (Rmult_le_reg_l (INR (List.length vs))); [exact Hpos|].
    replace (INR (List.length vs) * (Rsum vs / INR (List.length vs)))
      with (Rsum vs) by (field; lra).
    exact Hh.
Qed.

Lemma measured_in (readings : nat -> R) (clock0 m : nat) (v : R) :
  In v (measured readings clock0 m) ->
  exists i, (i < m)%nat /\
    v = readings (Datatypes.S (clock0 + 2 * i)) - readings (clock0 + 2 * i)%nat.
Proof.
  unfold measured. intros Hin. apply in_map_iff in Hin.
  destruct Hin as [i [Hv Hi]]. apply in_seq in Hi.
  exists i. split; [lia|]. symmetry. exact Hv.
Qed.

(** When every guard measures a duration between [lo] and [hi], the mean
    reported for a loop that runs through its [n >= 2] passes lies between
    [lo] and [hi], and the standard deviation reported is finite and not
    negative.  With a clock that never goes back ([lo = 0]) the mean is not
    negative. *)
Theorem reported_mean_within_durations
  (readings : nat -> R) (body : Body) (n : Z) (clock0 : nat) (nm : string)
  (lo hi : R) :
  runs_through body ->
  (2 <= n <= SIZE_MAX)%Z ->
  (forall i, (i < Z.to_nat n)%nat ->
     lo <= readings (Datatypes.S (clock0 + 2 * i))
           - readings (clock0 + 2 * i)%nat <= hi) ->
  exists m sd : R,
    report (ops := exact_ops)
      (fst (range_for (timer := exact_timer readings) (ops := exact_ops) body
              (new_State n) clock0)) nm =
    {| rep_name := nm; rep_iterations := n; rep_mean := Some m; rep_sd := Some sd |} /\
    lo <= m <= hi /\
    0 <= sd.
Proof.
  intros Hbody Hn Hd.
  exists (arithmetic_mean (measured readings clock0 (Z.to_nat n))),
         (sample_sd (measured readings clock0 (Z.to_nat n))).
  split; [apply run_report_exact; assumption|]. split.
  - apply arithmetic_mean_bounds.
    + rewrite measured_length. lia.
    + intros v Hv. apply measured_in in Hv. destruct Hv as [i [Hi Hv]].
      rewrite Hv. apply Hd. exact Hi.
  - unfold sample_sd. apply sqrt_pos.
Qed.

Lemma squared_deviations_constant (delta : R) (vs : list R) :
  (forall v, In v vs -> v = delta) -> squared_deviations delta vs = 0.
Proof.
  unfold squared_deviations. induction vs as [|v vs IH]; intros Hin.
  - reflexivity.
  - cbn [map Rsum]. rewrite IH by (intros w Hw; apply Hin; right; exact Hw).
    rewrite (Hin v) by (left; reflexivity). ring.
Qed.

(** When every guard measures the same duration, a loop that runs through
    its [n >= 2] passes reports that duration as the mean and a standard
    deviation of exactly 0. *)
Theorem constant_durations_have_no_deviation
  (readings : nat -> R) (body : Body) (n : Z) (clock0 : nat) (nm : string)
  (delta : R) :
  runs_through body ->
  (2 <= n <= SIZE_MAX)%Z ->
  (forall i, (i < Z.to_nat n)%nat ->
     readings (Datatypes.S (clock0 + 2 * i)) - readings (clock0 + 2 * i)%nat = delta) ->
  report (ops := exact_ops)
    (fst (range_for (timer := exact_timer readings) (ops := exact_ops) body
            (new_State n) clock0)) nm =
  {| rep_name := nm; rep_iterations := n; rep_mean := Some delta; rep_sd := Some 0 |}.
Proof.
  intros Hbody Hn Hd.
  rewrite run_report_exact by assumption.
  set (ds := measured readings clock0 (Z.to_nat n)).
  assert (Hall : forall v, In v ds -> v = delta).
  { intros v Hv. apply measured_in in Hv. destruct Hv as [i [Hi Hv]].
    rewrite Hv. apply Hd. exact Hi. }
  assert (Hlen : (1 <= List.length ds)%nat)
    by (unfold ds; rewrite measured_length; lia).
  assert (Hmean : arithmetic_mean ds = delta).
  { assert (Hb : delta <= arithmetic_mean ds <= delta).
    { apply arithmetic_mean_bounds; [exact Hlen|].
      intros v Hv. rewrite (Hall v Hv). lra. }
    lra. }
  assert (Hsd : sample_sd ds = 0).
  { unfold sample_sd. rewrite Hmean, squared_deviations_constant by exact Hall.
    unfold Rdiv. rewrite Rmult_0_l. apply sqrt_0. }
  rewrite Hmean, Hsd. reflexivity.
Qed.

Lemma Rsum_scaled (a : R) (vs : list R) :
  Rsum (map (fun v => a * v) vs) = a * Rsum vs.
Proof.
  induction vs as [|v vs IH]; cbn [map Rsum].
  - ring.
  - rewrite IH. ring.
Qed.

Lemma arithmetic_mean_scaled (a : R) (vs : list R) :
  arithmetic_mean (map (fun v => a * v) vs) = a * arithmetic_mean vs.
Proof.
  unfold arithmetic_mean. rewrite Rsum_scaled, length_map.
  unfold Rdiv. ring.
Qed.

Lemma squared_deviations_scaled (a mu : R) (vs : list R) :
  squared_deviations (a * mu) (map (fun v => a * v) vs) =
  a * a * squared_deviations mu vs.
Proof.
  unfold squared_deviations. induction vs as [|v vs IH]; cbn [map Rsum].
  - ring.
  - rewrite IH. ring.
Qed.

Lemma sample_sd_scaled (a : R) (vs : list R) :
  0 <= a ->
  sample_sd (map (fun v => a * v) vs) = a * sample_sd vs.
Proof.
  intros Ha. unfold sample_sd.
  rewrite arithmetic_mean_scaled, squared_deviations_scaled, length_map.
  replace (a * a * squared_deviations (arithmetic_mean vs) vs /
           (INR (List.length vs) - 1))
    with (a * a * (squared_deviations (arithmetic_mean vs) vs /
                   (INR (List.length vs) - 1)))
    by (unfold Rdiv; ring).
  rewrite sqrt_mult_alt by (apply Rmult_le_pos; exact Ha).
  rewrite sqrt_square by exact Ha. reflexivity.
Qed.

Lemma measured_affine (readings : nat -> R) (a b : R) (clock0 m : nat) :
  measured (fun k => a * readings k + b) clock0 m =
  map (fun v => a * v) (measured readings clock0 m).
Proof.
  unfold measured. rewrite map_map. apply map_ext. intros i. ring.
Qed.

(** Changing the unit and the origin of the clock, so that it reads
    [a * t + b] where it read [t], with [a >= 0]: a loop that runs through
    its [n >= 2] passes reports the mean and the standard deviation it
    reported before, each multiplied by [a]; the origin [b] has no effect. *)
Theorem clock_unit_scales_the_report
  (readings : nat -> R) (a b : R) (body : Body) (n : Z) (clock0 : nat)
  (nm : string) :
  runs_through body ->
  (2 <= n <= SIZE_MAX)%Z ->
  0 <= a ->
  let before :=
    report (ops := exact_ops)
      (fst (range_for (timer := exact_timer readings) (ops := exact_ops) body
              (new_State n) clock0)) nm in
  let after :=
    report (ops := exact_ops)
      (fst (range_for (timer := exact_timer (fun k => a * readings k + b))
              (ops := exact_ops) body (new_State n) clock0)) nm in
  exists m sd : R,
    rep_mean before = Some m /\ rep_sd before = Some sd /\
    rep_mean after = Some (a * m) /\ rep_sd after = Some (a * sd) /\
    rep_iterations after = rep_iterations before.
Proof.
  intros Hbody Hn Ha before after. subst before after.
  rewrite !run_report_exact by assumption.
  rewrite measured_affine, arithmetic_mean_scaled, sample_sd_scaled by exact Ha.
  cbn [rep_mean rep_sd rep_iterations].
  eexists. eexists. repeat split; reflexivity.
Qed.

Lemma Rsum_permutation (vs vs' : list R) :
  Permutation vs vs' -> Rsum vs = Rsum vs'.
Proof.
  induction 1 as [|v l l' _ IH|v w l|l l' l'' _ IH1 _ IH2]; cbn [Rsum].
  - reflexivity.
  - rewrite IH. reflexivity.
  - ring.
  - rewrite IH1. exact IH2.
Qed.

(** The statistics do not depend on the order of the samples: a fresh
    [State] fed the same durations in another order ends up the same, mean
    and [M2] included. *)
Theorem statistics_ignore_the_order (vs vs' : list R) (n : Z) :
  Permutation vs vs' ->
  (Z.of_nat (List.length vs) <= SIZE_MAX)%Z ->
  fold_left (update (ops := exact_ops)) (map Some vs) (new_State n) =
  fold_left (update (ops := exact_ops)) (map Some vs') (new_State n).
Proof.
  intros Hperm Hmax.
  assert (Hlen : List.length vs' = List.length vs)
    by (symmetry; apply Permutation_length; exact Hperm).
  rewrite !welford_result_any by (rewrite ?Hlen; exact Hmax).
  assert (Hmean : arithmetic_mean vs' = arithmetic_mean vs).
  { unfold arithmetic_mean. rewrite Hlen, (Rsum_permutation vs vs' Hperm).
    reflexivity. }
  assert (Hsq : squared_deviations (arithmetic_mean vs) vs' =
                squared_deviations (arithmetic_mean vs) vs).
  { unfold squared_deviations. symmetry. apply Rsum_permutation.
    apply Permutation_map. exact Hperm. }
  rewrite Hmean, Hsq, Hlen. reflexivity.
Qed.

End ExactMoreFacts.

(** ** The theorems at concrete inputs *)

(** [SIZE_MAX] on the LP64 target. *)
Lemma SIZE_MAX_lp64 : SIZE_MAX (platform := lp64) = 18446744073709551615.
Proof. reflexivity. Qed.

(** Three durations, 1, 3 and 2, fed to a [State] made for three. *)
Lemma welford_mean_and_sample_sd_witness :
  let vs := [1; 3; 2]%R in
  let s := fold_left (update (platform := lp64) (ops := plain_accumulator))
             (map Some vs) (new_State 3) in
  (2 <= List.length vs)%nat /\
  Z.of_nat (List.length vs) <= SIZE_MAX (platform := lp64) /\
  iteration_ s = 3 /\
  mean_ s = Some (arithmetic_mean vs) /\
  rep_mean (report (platform := lp64) s "demo") = Some (arithmetic_mean vs) /\
  rep_sd (report (platform := lp64) s "demo") = Some (sample_sd vs).
Proof.
  assert (H2 : (2 <= List.length [1; 3; 2]%R)%nat) by (cbn; lia).
  assert (Hmax : Z.of_nat (List.length [1; 3; 2]%R) <= SIZE_MAX (platform := lp64))
    by (rewrite SIZE_MAX_lp64; cbn; lia).
  split; [exact H2|]. split; [exact Hmax|].
  exact (welford_mean_and_sample_sd (platform := lp64) [1; 3; 2]%R "demo" H2 Hmax).
Defined.

(** The first update of a [State] made for three, in [double]. *)
Lemma update_is_welford_step_witness :
  let s := new_State (ops := plain_accumulator (S := float)) 3 in
  0 <= iteration_ s < SIZE_MAX (platform := lp64) /\
  update (platform := lp64) s 5%float =
    {| iterations_ := 3; iteration_ := 1; mean_ := 5%float;
       squared_differences_ := 0%float |} /\
  iteration_ (update (platform := lp64) s 5%float) = 0 + 1.
Proof.
  assert (Hi : 0 <= iteration_ (new_State (ops := plain_accumulator (S := float)) 3)
               < SIZE_MAX (platform := lp64))
    by (rewrite SIZE_MAX_lp64; cbn; lia).
  split; [exact Hi|].
  exact (update_is_welford_step (platform := lp64)
           (new_State (ops := plain_accumulator (S := float)) 3) 5%float Hi).
Defined.

Lemma demo_registrations_keep_target :
  Forall (fun r => keeps_target (reg_function r)) demo_registrations.
Proof.
  repeat constructor; cbn [reg_function]; apply range_for_keeps_target.
Qed.

Lemma runBenchmarks_reports_in_order_witness :
  let b := register_all (new_Benchmarker (Some 2)) demo_registrations in
  let log := snd (runBenchmarks (platform := lp64) b 0) in
  let calls := reporter_calls log in
  let states := returned_states (evaluators b) 0 in
  Forall (fun r => keeps_target (reg_function r)) demo_registrations /\
  List.length calls = 2%nat /\
  map rep_name calls = ["empty"; "breaking"]%string /\
  map rep_iterations calls = [2; 3] /\
  List.length states = 2%nat /\
  log = flat_map (fun ns => turn_events (platform := lp64) (fst ns) (snd ns))
          (combine ["empty"; "breaking"]%string states).
Proof.
  split; [exact demo_registrations_keep_target|].
  exact (runBenchmarks_reports_in_order (platform := lp64) (Some 2)
           demo_registrations 0 demo_registrations_keep_target).
Defined.

(** A benchmark registered without a count between two others, on a harness
    made without a default, all three the empty loop on the demo clock. *)
Lemma default_count_1000_stored_run_reported_witness :
  let f := range_for (platform := lp64) (timer := demo_timer)
             (ops := plain_accumulator (S := float)) empty_body in
  let before := [mk_Registration "first" f (Some 7)] in
  let after := [mk_Registration "last" f (Some 9)] in
  let b_before := register_all (new_Benchmarker None) before in
  let b := register_all (new_Benchmarker None)
             (before ++ mk_Registration "middle" f None :: after) in
  let k := fst (runBenchmarks (platform := lp64)
                  (ops := plain_accumulator (S := float)) b_before 0) in
  let out := f (new_State (ops := plain_accumulator (S := float)) 1000) k in
  let log := snd (runBenchmarks (platform := lp64)
                    (ops := plain_accumulator (S := float)) b 0) in
  let rep := report (platform := lp64) (ops := plain_accumulator (S := float))
               (fst out) "middle" in
  keeps_target f /\
  default_iterations_ b = 1000 /\
  nth_error (evaluators b) 1 = Some (mk_Evaluator "middle" f 1000) /\
  firstn (2 * 1) log =
    snd (runBenchmarks (platform := lp64)
           (ops := plain_accumulator (S := float)) b_before 0) /\
  nth_error log (2 * 1) = Some (FunctionReturned "middle" (fst out)) /\
  nth_error log (2 * 1 + 1) = Some (ReporterCalled rep) /\
  nth_error (reporter_calls log) 1 = Some rep /\
  rep_name rep = "middle"%string /\
  rep_iterations rep = 1000 /\
  (forall body, runs_through body ->
     f = range_for (platform := lp64) (timer := demo_timer)
           (ops := plain_accumulator (S := float)) body ->
     let final := range_for_config (platform := lp64) (timer := demo_timer)
                    (ops := plain_accumulator (S := float)) body
                    (new_State 1000) k in
     point final = LoopLeft /\
     passes final = 1000%nat /\
     updates_done (trace final) = 1000%nat /\
     iteration_ (st final) = 1000 /\
     fst out = st final /\
     snd out = (k + 2000)%nat).
Proof.
  split; [apply range_for_keeps_target|].
  exact (default_count_1000_stored_run_reported (platform := lp64)
           (timer := demo_timer)
           [mk_Registration "first" _ (Some 7)]
           [mk_Registration "last" _ (Some 9)] "middle"
           (range_for (platform := lp64) (timer := demo_timer)
              (ops := plain_accumulator) empty_body)
           0 (range_for_keeps_target empty_body)).
Defined.

(** The empty loop for a target of three on the demo clock: the durations
    1, 3 and 2 leave [M2 = 2], and the Reporter gets [sqrt (2 / (3 - 1))]. *)
Lemma report_sd_over_samples_accumulated_witness :
  let final := demo_run empty_body 3 in
  let samples := updates_done (trace final) in
  runs_through empty_body /\
  1 <= 3 <= SIZE_MAX (platform := lp64) /\
  point final = LoopLeft /\
  Z.of_nat samples = 3 /\
  iteration_ (st final) = Z.of_nat samples /\
  st final = fold_left (update (platform := lp64)) (fed (trace final)) (new_State 3) /\
  rep_sd (report (platform := lp64) (st final) "demo") =
    acc_sqrt (acc_div (squared_differences_ (st final)) (Z.of_nat samples - 1)) /\
  snd (run_one (platform := lp64) (0%nat, [])
         (mk_Evaluator "demo"
            (range_for (platform := lp64) (timer := demo_timer) empty_body) 3)) =
    [FunctionReturned "demo" (st final);
     ReporterCalled (report (platform := lp64) (st final) "demo")].
Proof.
  assert (Hb : runs_through empty_body) by (intros k; reflexivity).
  assert (Hn : 1 <= 3 <= SIZE_MAX (platform := lp64))
    by (rewrite SIZE_MAX_lp64; lia).
  split; [exact Hb|]. split; [exact Hn|].
  exact (report_sd_over_samples_accumulated (platform := lp64)
           (timer := demo_timer) (ops := plain_accumulator) empty_body 3 0 "demo"
           Hb Hn).
Defined.

(** The empty loop for a target of three on the demo clock. *)
Lemma positive_target_runs_n_passes_witness :
  let final := demo_run empty_body 3 in
  runs_through empty_body /\
  1 <= 3 <= SIZE_MAX (platform := lp64) /\
  point final = LoopLeft /\
  passes final = 3%nat /\
  iteration_ (st final) = 3.
Proof.
  assert (Hb : runs_through empty_body) by (intros k; reflexivity).
  assert (Hn : 1 <= 3 <= SIZE_MAX (platform := lp64))
    by (rewrite SIZE_MAX_lp64; lia).
  split; [exact Hb|]. split; [exact Hn|].
  exact (proj2 (proj2 (proj2 (proj2
           (positive_target_runs_n_passes (platform := lp64) (timer := demo_timer)
              (ops := plain_accumulator) empty_body 3 0 0 Hb Hn))))).
Defined.

Lemma benchmark_reports_mean_and_sample_sd_witness :
  runs_through empty_body /\
  2 <= 3 <= SIZE_MAX (platform := lp64) /\
  report (platform := lp64) (ops := plain_accumulator)
    (fst (range_for (platform := lp64) (timer := exact_timer demo_exact_readings)
            (ops := plain_accumulator) empty_body (new_State 3) 0%nat)) "demo" =
  {| rep_name := "demo";
     rep_iterations := 3;
     rep_mean := Some (arithmetic_mean (measured demo_exact_readings 0 3));
     rep_sd := Some (sample_sd (measured demo_exact_readings 0 3)) |}.
Proof.
  assert (Hb : runs_through empty_body) by (intros k; reflexivity).
  assert (Hn : 2 <= 3 <= SIZE_MAX (platform := lp64))
    by (rewrite SIZE_MAX_lp64; lia).
  split; [exact Hb|]. split; [exact Hn|].
  exact (benchmark_reports_mean_and_sample_sd (platform := lp64)
           demo_exact_readings empty_body 3 0 "demo" Hb Hn).
Defined.

(** ** Where the code departs from the specification *)

(** C4 fails on the code: the empty loop over a [State] made for zero
    iterations enters its body once, creates and releases one guard, calls
    [update] once and leaves a mean of 1, the duration measured, not 0; the
    Reporter gets the count 0, the mean 1 and the standard deviation 0. *)
Lemma zero_target_enters_body :
  let c := demo_run empty_body 0 in
  passes c = 1%nat /\
  ~ passes c = 0%nat /\
  guards_created (trace c) = 1%nat /\
  updates_done (trace c) = 1%nat /\
  iteration_ (st c) = 1 /\
  mean_ (st c) = 1%float /\
  mean_ (st c) <> acc_zero /\
  demo_report empty_body 0 =
    {| rep_name := "demo"; rep_iterations := 0; rep_mean := 1%float;
       rep_sd := 0%float |}.
Proof.
  cbv zeta.
  assert (Hm : mean_ (st (demo_run empty_body 0)) = 1%float) by reflexivity.
  repeat split; try reflexivity.
  - vm_compute. discriminate.
  - rewrite Hm. intros H.
    apply (f_equal (fun x => PrimFloat.eqb x 1%float)) in H.
    vm_compute in H. discriminate.
Qed.

(** C5 fails on the code: after the single pass of a loop over a [State] made
    for one iteration, [report] performs the division of [M2 = 0] by the
    count [1 - 1 = 0] and hands the Reporter its root, which is NaN. *)
Lemma single_iteration_sd_is_nan :
  let s := st (demo_run empty_body 1) in
  let r := demo_report empty_body 1 in
  iteration_ s = 1 /\
  squared_differences_ s = 0%float /\
  rep_mean r = 1%float /\
  rep_sd r = PrimFloat.sqrt (PrimFloat.div (squared_differences_ s) (double_of_size 0)) /\
  is_nan (rep_sd r) = true.
Proof. cbv zeta. repeat split; reflexivity. Qed.

(** ** The further theorems at concrete inputs *)

(** The loop that breaks in its second pass, for a target of three, seen
    after seven steps and at its end. *)
Lemma loop_is_left_under_every_body_witness :
  let c := run (platform := lp64) (timer := demo_timer) (ops := plain_accumulator)
             breaking_body 7 (enter (new_State 3) 0) in
  let final := demo_run breaking_body 3 in
  0 <= 3 <= SIZE_MAX (platform := lp64) /\
  point c <> Undefined /\
  0 <= iteration_ (st c) <= Z.max 1 3 /\
  point final = LoopLeft /\
  (1 <= passes final)%nat /\
  Z.of_nat (passes final) <= Z.max 1 3 /\
  iteration_ (st final) = Z.of_nat (passes final) /\
  clock final = (0 + 2 * passes final)%nat /\
  st final = fold_left (update (platform := lp64))
               (elapsed (timer := demo_timer) 0 (passes final)) (new_State 3).
Proof.
  assert (Hn : 0 <= 3 <= SIZE_MAX (platform := lp64))
    by (rewrite SIZE_MAX_lp64; lia).
  split; [exact Hn|].
  exact (loop_is_left_under_every_body (platform := lp64) (timer := demo_timer)
           (ops := plain_accumulator) breaking_body 3 0 7 Hn).
Defined.

Lemma breaks_at_first_leaves (j : nat) : first_leaves_at (breaks_at j) j.
Proof.
  unfold first_leaves_at, breaks_at. split.
  - intros i Hi. destruct (Nat.eqb_spec i j); [lia|reflexivity].
  - rewrite Nat.eqb_refl. reflexivity.
Qed.

(** A loop for a target of three whose body breaks in the pass numbered 1. *)
Lemma leaving_early_keeps_the_target_witness :
  let final := range_for_config (platform := lp64) (timer := demo_timer)
                 (ops := plain_accumulator) (breaks_at 1) (new_State 3) 0 in
  first_leaves_at (breaks_at 1) 1 /\
  Z.of_nat 1 < Z.max 1 3 /\
  0 <= 3 <= SIZE_MAX (platform := lp64) /\
  point final = LoopLeft /\
  passes final = 2%nat /\
  iteration_ (st final) = Z.of_nat 2 /\
  clock final = (0 + 2 * 2)%nat /\
  st final = fold_left (update (platform := lp64))
               (elapsed (timer := demo_timer) 0 2) (new_State 3) /\
  rep_iterations (report (platform := lp64) (st final) "demo") = 3.
Proof.
  assert (Hj : Z.of_nat 1 < Z.max 1 3) by (cbn; lia).
  assert (Hn : 0 <= 3 <= SIZE_MAX (platform := lp64))
    by (rewrite SIZE_MAX_lp64; lia).
  split; [apply breaks_at_first_leaves|]. split; [exact Hj|]. split; [exact Hn|].
  exact (leaving_early_keeps_the_target (platform := lp64) (timer := demo_timer)
           (ops := plain_accumulator) (breaks_at 1) 3 1 0 "demo"
           (breaks_at_first_leaves 1) Hj Hn).
Defined.

(** The three benchmarks of the examples with counts 2, 2 and 3. *)
Lemma loop_benchmarks_report_their_own_passes_witness :
  let ls := example_loops 2 3 in
  let b := register_all (new_Benchmarker None)
             (map (loop_registration (platform := lp64) (timer := demo_timer)
                     (ops := plain_accumulator)) ls) in
  Forall (fun l => runs_through (loop_body l) /\
                   1 <= loop_count l <= SIZE_MAX (platform := lp64)) ls /\
  fst (runBenchmarks (platform := lp64) b 0) = (0 + readings_taken ls)%nat /\
  reporter_calls (snd (runBenchmarks (platform := lp64) b 0)) =
    own_reports (platform := lp64) (timer := demo_timer) ls 0.
Proof.
  assert (Hls : Forall (fun l => runs_through (loop_body l) /\
                          1 <= loop_count l <= SIZE_MAX (platform := lp64))
                       (example_loops 2 3))
    by (apply example_loops_run; rewrite SIZE_MAX_lp64; lia).
  split; [exact Hls|].
  exact (loop_benchmarks_report_their_own_passes (platform := lp64)
           (timer := demo_timer) (ops := plain_accumulator) None
           (example_loops 2 3) 0 Hls).
Defined.

(** The [stl_chrono] program on the LP64 target, in [double]. *)
Lemma stl_chrono_main_reports_witness :
  let out := stl_chrono_main (platform := lp64) (timer := demo_timer)
               (ops := plain_accumulator) 0 in
  let calls := reporter_calls (snd out) in
  100000 <= SIZE_MAX (platform := lp64) /\
  Z.of_nat (fst out) = Z.of_nat 0 + 424000 /\
  map rep_name calls =
    ["benchmark_empty"; "benchmark_loop"; "benchmark_loop_double"]%string /\
  map rep_iterations calls = [100000; 100000; 12000] /\
  calls = own_reports (platform := lp64) (timer := demo_timer)
            (example_loops 100000 12000) 0.
Proof.
  assert (Hmax : 100000 <= SIZE_MAX (platform := lp64))
    by (rewrite SIZE_MAX_lp64; lia).
  split; [exact Hmax|].
  exact (stl_chrono_main_reports (platform := lp64) (timer := demo_timer)
           (ops := plain_accumulator) 0 Hmax).
Defined.

(** The empty loop for a target of three by the exact demo clock, after
    seven steps. *)
Lemma running_statistics_at_every_step_witness :
  let c := run (platform := lp64) (timer := exact_timer demo_exact_readings)
             (ops := plain_accumulator) empty_body 7 (enter (new_State 3) 0) in
  let ds := measured demo_exact_readings 0 (guards_released (trace c)) in
  0 <= 3 <= SIZE_MAX (platform := lp64) /\
  st c =
    {| iterations_ := 3;
       iteration_ := Z.of_nat (List.length ds);
       mean_ := Some (arithmetic_mean ds);
       squared_differences_ := Some (squared_deviations (arithmetic_mean ds) ds) |} /\
  List.length ds = guards_released (trace c) /\
  (0 <= squared_deviations (arithmetic_mean ds) ds)%R.
Proof.
  assert (Hn : 0 <= 3 <= SIZE_MAX (platform := lp64))
    by (rewrite SIZE_MAX_lp64; lia).
  split; [exact Hn|].
  exact (running_statistics_at_every_step (platform := lp64) demo_exact_readings
           empty_body 3 0 7 Hn).
Defined.

Lemma demo_exact_durations (i : nat) :
  (i < Z.to_nat 3)%nat ->
  (1 <= demo_exact_readings (S (0 + 2 * i)) - demo_exact_readings (0 + 2 * i) <= 3)%R.
Proof.
  intros Hi.
  destruct i as [|[|[|i]]]; [| | |exfalso; lia];
    unfold demo_exact_readings; cbn [Nat.add Nat.mul nth]; lra.
Qed.

(** The durations 1, 3 and 2 of the exact demo clock lie between 1 and 3. *)
Lemma reported_mean_within_durations_witness :
  runs_through empty_body /\
  2 <= 3 <= SIZE_MAX (platform := lp64) /\
  (forall i, (i < Z.to_nat 3)%nat ->
     (1 <= demo_exact_readings (S (0 + 2 * i))
           - demo_exact_readings (0 + 2 * i) <= 3)%R) /\
  exists m sd : R,
    report (platform := lp64) (ops := plain_accumulator)
      (fst (range_for (platform := lp64) (timer := exact_timer demo_exact_readings)
              (ops := plain_accumulator) empty_body (new_State 3) 0%nat)) "demo" =
    {| rep_name := "demo"; rep_iterations := 3; rep_mean := Some m;
       rep_sd := Some sd |} /\
    (1 <= m <= 3)%R /\
    (0 <= sd)%R.
Proof.
  assert (Hb : runs_through empty_body) by (intros k; reflexivity).
  assert (Hn : 2 <= 3 <= SIZE_MAX (platform := lp64))
    by (rewrite SIZE_MAX_lp64; lia).
  split; [exact Hb|]. split; [exact Hn|]. split; [exact demo_exact_durations|].
  exact (reported_mean_within_durations (platform := lp64) demo_exact_readings
           empty_body 3 0 "demo" 1 3 Hb Hn demo_exact_durations).
Defined.

Lemma ticking_durations (i : nat) :
  (i < Z.to_nat 3)%nat ->
  (ticking_readings (S (0 + 2 * i)) - ticking_readings (0 + 2 * i) = 1)%R.
Proof.
  intros _. unfold ticking_readings. rewrite S_INR. ring.
Qed.

Lemma constant_durations_have_no_deviation_witness :
  runs_through empty_body /\
  2 <= 3 <= SIZE_MAX (platform := lp64) /\
  (forall i, (i < Z.to_nat 3)%nat ->
     (ticking_readings (S (0 + 2 * i)) - ticking_readings (0 + 2 * i) = 1)%R) /\
  report (platform := lp64) (ops := plain_accumulator)
    (fst (range_for (platform := lp64) (timer := exact_timer ticking_readings)
            (ops := plain_accumulator) empty_body (new_State 3) 0%nat)) "demo" =
  {| rep_name := "demo"; rep_iterations := 3; rep_mean := Some 1%R;
     rep_sd := Some 0%R |}.
Proof.
  assert (Hb : runs_through empty_body) by (intros k; reflexivity).
  assert (Hn : 2 <= 3 <= SIZE_MAX (platform := lp64))
    by (rewrite SIZE_MAX_lp64; lia).
  split; [exact Hb|]. split; [exact Hn|]. split; [exact ticking_durations|].
  exact (constant_durations_have_no_deviation (platform := lp64) ticking_readings
           empty_body 3 0 "demo" 1%R Hb Hn ticking_durations).
Defined.

(** The exact demo clock read in units a thousand times smaller, from an
    origin moved by 5. *)
Lemma clock_unit_scales_the_report_witness :
  let before :=
    report (platform := lp64) (ops := plain_accumulator)
      (fst (range_for (platform := lp64) (timer := exact_timer demo_exact_readings)
              (ops := plain_accumulator) empty_body (new_State 3) 0%nat)) "demo" in
  let after :=
    report (platform := lp64) (ops := plain_accumulator)
      (fst (range_for (platform := lp64)
              (timer := exact_timer (fun k => 1000 * demo_exact_readings k + 5)%R)
              (ops := plain_accumulator) empty_body (new_State 3) 0%nat)) "demo" in
  runs_through empty_body /\
  2 <= 3 <= SIZE_MAX (platform := lp64) /\
  (0 <= 1000)%R /\
  exists m sd : R,
    rep_mean before = Some m /\ rep_sd before = Some sd /\
    rep_mean after = Some (1000 * m)%R /\ rep_sd after = Some (1000 * sd)%R /\
    rep_iterations after = rep_iterations before.
Proof.
  assert (Hb : runs_through empty_body) by (intros k; reflexivity).
  assert (Hn : 2 <= 3 <= SIZE_MAX (platform := lp64))
    by (rewrite SIZE_MAX_lp64; lia).
  assert (Ha : (0 <= 1000)%R) by lra.
  split; [exact Hb|]. split; [exact Hn|]. split; [exact Ha|].
  exact (clock_unit_scales_the_report (platform := lp64) demo_exact_readings
           1000%R 5%R empty_body 3 0 "demo" Hb Hn Ha).
Defined.

(** The durations 1, 3 and 2, and the same as 2, 1 and 3. *)
Lemma statistics_ignore_the_order_witness :
  Permutation [1; 3; 2]%R [2; 1; 3]%R /\
  Z.of_nat (List.length [1; 3; 2]%R) <= SIZE_MAX (platform := lp64) /\
  fold_left (update (platform := lp64) (ops := plain_accumulator))
    (map Some [1; 3; 2]%R) (new_State 3) =
  fold_left (update (platform := lp64) (ops := plain_accumulator))
    (map Some [2; 1; 3]%R) (new_State 3).
Proof.
  assert (Hp : Permutation [1; 3; 2]%R [2; 1; 3]%R).
  { apply perm_trans with [1; 2; 3]%R.
    - apply perm_skip. apply perm_swap.
    - apply perm_swap. }
  assert (Hmax : Z.of_nat (List.length [1; 3; 2]%R) <= SIZE_MAX (platform := lp64))
    by (rewrite SIZE_MAX_lp64; cbn; lia).
  split; [exact Hp|]. split; [exact Hmax|].
  exact (statistics_ignore_the_order (platform := lp64) [1; 3; 2]%R [2; 1; 3]%R 3
           Hp Hmax).
Defined.
